(** * vm_inventory: record normalisation and collection pipeline

    A shallow embedding of [vm_inventory.py].  JSON values produced by
    [json.loads] are an inductive type, Python dictionaries are
    insertion-ordered association lists, exceptions are values of a sum
    type, and the external command-line clients are an oracle indexed by
    the number of commands already spawned.  Writing the report is an
    oracle too: it may succeed or raise, and [main] lets that exception
    through.  Printing is taken to succeed, and the traceback the
    interpreter prints for an exception that leaves [main] is not part of
    the streams modelled here. *)

From Stdlib Require Import String Ascii List ZArith Bool Lia.
Import ListNotations.
Local Open Scope string_scope.
Local Open Scope list_scope.
Set Warnings "-register-all".

(** ** Values handed over by [json.loads] *)

(** JSON numbers are restricted to integers; a float behaves like an
    integer wherever this program looks at it (truthiness only). *)
Inductive json : Type :=
| JNull
| JBool (b : bool)
| JNum (z : Z)
| JStr (s : string)
| JArr (items : list json)
| JObj (fields : list (string * json)).

(** Exceptions the program can raise; all are subclasses of [Exception]. *)
Inductive exn : Type :=
| RuntimeError_CommandFailed (returncode : Z) (command : list string) (stderr : string)
    (* RuntimeError("Command failed (rc): cmd\nstderr") *)
| RuntimeError_MalformedOutput (command : list string) (stdout : string)
    (* RuntimeError("Failed to parse JSON output from: cmd\nstdout") *)
| ValueError (msg : string)
| KeyError (key : json)
| AttributeError
| TypeError
| OSError
| UnicodeDecodeError
| UnicodeEncodeError.

Inductive result (A : Type) : Type :=
| Ok (a : A)
| Raise (e : exn).
Arguments Ok {A} a.
Arguments Raise {A} e.

Definition rbind {A B} (r : result A) (k : A -> result B) : result B :=
  match r with
  | Ok a => k a
  | Raise e => Raise e
  end.

Declare Scope res_scope.
Delimit Scope res_scope with res.
Notation "x <- c ;; k" := (rbind c (fun x => k))
  (at level 61, c at next level, right associativity) : res_scope.

(** Python truthiness: [None], [False], [0], [""], [[]] and [{}] are falsy. *)
Definition truthy (v : json) : bool :=
  match v with
  | JNull => false
  | JBool b => b
  | JNum z => negb (Z.eqb z 0)
  | JStr s => negb (String.eqb s "")
  | JArr l => match l with [] => false | _ => true end
  | JObj l => match l with [] => false | _ => true end
  end.

(** [a or b] *)
Definition py_or (a b : json) : json := if truthy a then a else b.

(** ** Insertion-ordered dictionaries

    A Python [dict] is a list of entries in insertion order.  Storing
    under a key already present replaces the value in place and keeps the
    entry's position and its original key object. *)
Section Dict.
Context {K V : Type} (eqb : K -> K -> bool).

Fixpoint dict_get (k : K) (d : list (K * V)) : option V :=
  match d with
  | [] => None
  | (k', v) :: d' => if eqb k k' then Some v else dict_get k d'
  end.

Fixpoint dict_set (k : K) (v : V) (d : list (K * V)) : list (K * V) :=
  match d with
  | [] => [(k, v)]
  | (k', v') :: d' =>
      if eqb k k' then (k', v) :: d' else (k', v') :: dict_set k v d'
  end.
End Dict.

(** Lookup in the fields of an object; [json.loads] keeps one entry per
    key. *)
Definition assoc_get {V} (k : string) (d : list (string * V)) : option V :=
  dict_get String.eqb k d.

(** [v.get(k, default)]: only a dict has [get]. *)
Definition py_get (v : json) (k : string) (default : json) : result json :=
  match v with
  | JObj fields =>
      Ok (match assoc_get k fields with Some x => x | None => default end)
  | _ => Raise AttributeError
  end.

(** [v[k]] with a string subscript. *)
Definition py_getitem (v : json) (k : string) : result json :=
  match v with
  | JObj fields =>
      match assoc_get k fields with Some x => Ok x | None => Raise (KeyError (JStr k)) end
  | _ => Raise TypeError
  end.

Fixpoint chars (s : string) : list json :=
  match s with
  | EmptyString => []
  | String c s' => JStr (String c EmptyString) :: chars s'
  end.

(** [for x in v]: a list yields its items, a dict its keys, a string its
    characters; nothing else is iterable. *)
Definition py_iter (v : json) : result (list json) :=
  match v with
  | JArr items => Ok items
  | JObj fields => Ok (map (fun kv => JStr (fst kv)) fields)
  | JStr s => Ok (chars s)
  | _ => Raise TypeError
  end.

(** ** VmRecord *)

Record VmRecord : Type := mkVmRecord {
  cloud : string;
  subscription_or_project : json;
  resource_group_or_project : json;
  name : json;
  status : json;
  owner : json;          (* JNull is None *)
  cleardata : json;
  environment : json
}.

Definition to_row (r : VmRecord) : list json :=
  [ JStr (cloud r);
    subscription_or_project r;
    resource_group_or_project r;
    name r;
    status r;
    py_or (owner r) (JStr "");
    py_or (cleardata r) (JStr "");
    py_or (environment r) (JStr "") ].

Definition CSV_HEADERS : list json :=
  map JStr [ "cloud"; "subscription_or_project"; "resource_group_or_project";
             "vm_name"; "status"; "owner"; "cleardata"; "environment" ].

(** ** Record mapping: the bodies of the two inner loops *)

(** Body of [for vm in vm_list] in [fetch_azure_vms]. *)
Definition azure_record (subscription_id subscription_name vm : json)
  : result VmRecord :=
  (t <- py_get vm "tags" (JObj []) ;;
   let tags := py_or t (JObj []) in
   rg <- py_get vm "resourceGroup" (JStr "") ;;
   nm <- py_get vm "name" (JStr "") ;;
   ps <- py_get vm "powerState" JNull ;;
   st <- (if truthy ps then Ok ps
          else py_get vm "provisioningState" (JStr "unknown")) ;;
   ow <- py_get tags "owner" JNull ;;
   cd <- py_get tags "cleardata" JNull ;;
   en <- py_get tags "environment" JNull ;;
   Ok (mkVmRecord "azure" (py_or subscription_name subscription_id)
                  rg nm st ow cd en))%res.

(** Body of [for instance in vm_list] in [fetch_gcp_vms]. *)
Definition gcp_record (project : string) (instance : json) : result VmRecord :=
  (l <- py_get instance "labels" (JObj []) ;;
   let labels := py_or l (JObj []) in
   nm <- py_get instance "name" (JStr "") ;;
   st <- py_get instance "status" (JStr "unknown") ;;
   ow <- py_get labels "owner" JNull ;;
   cd <- py_get labels "cleardata" JNull ;;
   en <- py_get labels "environment" JNull ;;
   Ok (mkVmRecord "gcp" (JStr project) (JStr project) nm st ow cd en))%res.

(** ** Subscription resolution *)

(** Keys of a dict must be hashable: lists and dicts are not. *)
Definition hashable (k : json) : bool :=
  match k with
  | JArr _ | JObj _ => false
  | _ => true
  end.

Definition num_of (k : json) : option Z :=
  match k with
  | JBool b => Some (if b then 1 else 0)%Z
  | JNum z => Some z
  | _ => None
  end.

(** Python's [==] on hashable JSON values: [True == 1] and [False == 0];
    values of different kinds are otherwise unequal. *)
Definition key_eqb (a b : json) : bool :=
  match a, b with
  | JNull, JNull => true
  | JStr s, JStr t => String.eqb s t
  | _, _ =>
      match num_of a, num_of b with
      | Some x, Some y => Z.eqb x y
      | _, _ => false
      end
  end.

(** [dict[json, json]], as built from the account list. *)
Definition subscriptions : Type := list (json * json).

Section Resolve.
(** [str.lower] *)
Variable lower : string -> string.

(** [{name.lower(): sub_id for sub_id, name in all_subscriptions.items()}],
    entry by entry; only a string has [lower]. *)
Fixpoint build_id_by_name (items : subscriptions)
    (acc : list (string * json)) : result (list (string * json)) :=
  match items with
  | [] => Ok acc
  | (sub_id, JStr nm) :: rest =>
      build_id_by_name rest (dict_set String.eqb (lower nm) sub_id acc)
  | (_, _) :: _ => Raise AttributeError
  end.

Definition unknown_subscription (value : string) : exn :=
  ValueError ("Azure subscription '" ++ value
              ++ "' is not available in the current context").

(** The [for value in requested] loop; [resolved] is the dict being
    filled. *)
Fixpoint resolve_loop (values : list string) (all_subscriptions : subscriptions)
    (id_by_name : list (string * json)) (resolved : subscriptions)
  : result subscriptions :=
  match values with
  | [] => Ok resolved
  | value :: rest =>
      let value_lower := lower value in
      match dict_get key_eqb (JStr value) all_subscriptions with
      | Some nm =>
          resolve_loop rest all_subscriptions id_by_name
                       (dict_set key_eqb (JStr value) nm resolved)
      | None =>
          match dict_get String.eqb value_lower id_by_name with
          | Some sub_id =>
              match dict_get key_eqb sub_id all_subscriptions with
              | Some nm =>
                  resolve_loop rest all_subscriptions id_by_name
                               (dict_set key_eqb sub_id nm resolved)
              | None => Raise (KeyError sub_id)
              end
          | None => Raise (unknown_subscription value)
          end
      end
  end.

Definition resolve_requested_subscriptions
    (requested : option (list string)) (all_subscriptions : subscriptions)
  : result subscriptions :=
  match requested with
  | None | Some [] => Ok all_subscriptions
  | Some values =>
      (id_by_name <- build_id_by_name all_subscriptions [] ;;
       resolve_loop values all_subscriptions id_by_name [])%res
  end.
End Resolve.

(** ASCII instance of [str.lower], used to run the model on examples. *)
Definition ascii_lower_char (c : ascii) : ascii :=
  let n := nat_of_ascii c in
  if andb (Nat.leb 65 n) (Nat.leb n 90) then ascii_of_nat (n + 32) else c.

Fixpoint ascii_lower (s : string) : string :=
  match s with
  | EmptyString => EmptyString
  | String c s' => String (ascii_lower_char c) (ascii_lower s')
  end.

(** ** External commands *)

Definition command : Type := list string.

(** What [subprocess.run] hands back. *)
Record completed : Type := mkCompleted {
  returncode : Z;
  stdout : string;
  stderr : string
}.

(** The commands spawned so far, oldest first. *)
Definition log : Type := list command.

(** Computations that spawn commands and may raise. *)
Definition M (A : Type) : Type := log -> result A * log.

Definition ret {A} (a : A) : M A := fun l => (Ok a, l).
Definition raise {A} (e : exn) : M A := fun l => (Raise e, l).
Definition lift {A} (r : result A) : M A := fun l => (r, l).
Definition bind {A B} (m : M A) (k : A -> M B) : M B :=
  fun l =>
    match m l with
    | (Ok a, l') => k a l'
    | (Raise e, l') => (Raise e, l')
    end.

Declare Scope cmd_scope.
Delimit Scope cmd_scope with cmd.
Notation "x <- c ;; k" := (bind c (fun x => k))
  (at level 61, c at next level, right associativity) : cmd_scope.

(** A [for] loop whose body updates the local variable [s]. *)
Fixpoint for_each {A S} (xs : list A) (body : A -> S -> M S) (s : S) : M S :=
  match xs with
  | [] => ret s
  | x :: xs' => (s' <- body x s ;; for_each xs' body s')%cmd
  end.

(** The inner loops: [records.append(...)] for every listed machine. *)
Fixpoint append_records (mk : json -> result VmRecord) (vms : list json)
    (records : list VmRecord) : result (list VmRecord) :=
  match vms with
  | [] => Ok records
  | vm :: rest =>
      (r <- mk vm ;; append_records mk rest (records ++ [r]))%res
  end.

(** The dict comprehension of [fetch_azure_subscriptions], entry by entry. *)
Fixpoint build_subscriptions (accounts : list json) (acc : subscriptions)
  : result subscriptions :=
  match accounts with
  | [] => Ok acc
  | account :: rest =>
      (k <- py_getitem account "id" ;;
       v <- py_get account "name" k ;;
       if hashable k then build_subscriptions rest (dict_set key_eqb k v acc)
       else Raise TypeError)%res
  end.

Definition az_account_list : command :=
  ["az"; "account"; "list"; "--output"; "json"].

Definition az_vm_list (subscription_id : string) : command :=
  ["az"; "vm"; "list"; "--subscription"; subscription_id;
   "--show-details"; "--output"; "json"].

Definition gcloud_instances_list (project : string) : command :=
  ["gcloud"; "compute"; "instances"; "list"; "--project"; project;
   "--format"; "json"].

Section Adapters.
(** [str.lower] *)
Variable lower : string -> string.
(** [str.strip] *)
Variable strip : string -> string.
(** [json.loads]; [None] is a JSONDecodeError. *)
Variable json_loads : string -> option json.
(** The outside world: what [subprocess.run] comes to for a command, given
    how many commands were spawned before it.  It returns the completed
    process, or raises: OSError when the process cannot be started,
    UnicodeDecodeError when its output cannot be decoded as text. *)
Variable cli : nat -> command -> result completed.

(** What [run_json_command] makes of the outcome of [subprocess.run]: an
    exception of [subprocess.run] passes through, a non-zero status
    raises before the output is looked at, and output that does not parse
    raises. *)
Definition outcome_json (cmd : command) (c : result completed) : result json :=
  match c with
  | Raise exc => Raise exc
  | Ok c =>
      if negb (Z.eqb (returncode c) 0)
      then Raise (RuntimeError_CommandFailed (returncode c) cmd
                    (strip (stderr c)))
      else match json_loads (stdout c) with
           | Some v => Ok v
           | None => Raise (RuntimeError_MalformedOutput cmd (strip (stdout c)))
           end
  end.

Definition run_json_command (cmd : command) : M json :=
  fun l => (outcome_json cmd (cli (length l) cmd), l ++ [cmd]).

Definition fetch_azure_subscriptions : M subscriptions :=
  (accounts <- run_json_command az_account_list ;;
   lift (items <- py_iter accounts ;; build_subscriptions items [])%res)%cmd.

(** One round of [for subscription_id, subscription_name in ...].  The
    argument vector must consist of strings: [subprocess.run] raises
    TypeError before starting anything otherwise. *)
Definition azure_scope (scope : json * json) (records : list VmRecord)
  : M (list VmRecord) :=
  let '(subscription_id, subscription_name) := scope in
  match subscription_id with
  | JStr sid =>
      (vm_list <- run_json_command (az_vm_list sid) ;;
       lift (vms <- py_iter vm_list ;;
             append_records (azure_record subscription_id subscription_name)
                            vms records)%res)%cmd
  | _ => raise TypeError
  end.

Definition fetch_azure_vms (subscription_filters : option (list string))
  : M (list VmRecord) :=
  (subs <- fetch_azure_subscriptions ;;
   scopes <- lift (resolve_requested_subscriptions lower subscription_filters subs) ;;
   for_each scopes azure_scope [])%cmd.

(** One round of [for project in projects]. *)
Definition gcp_scope (project : string) (records : list VmRecord)
  : M (list VmRecord) :=
  (vm_list <- run_json_command (gcloud_instances_list project) ;;
   lift (vms <- py_iter vm_list ;;
         append_records (gcp_record project) vms records)%res)%cmd.

Definition fetch_gcp_vms (projects : list string) : M (list VmRecord) :=
  match projects with
  | [] => ret []
  | _ => for_each projects gcp_scope []
  end.

(** ** Orchestrator *)

Record Args : Type := mkArgs {
  azure_subscription : option (list string);
  gcp_project : option (list string);
  output : string
}.

(** Lines printed by [main]; the text of an exception is kept symbolic. *)
Inductive line : Type :=
| Failed (prefix : string) (exc : exn)   (* f"{prefix}{exc}" *)
| Text (s : string)
| Wrote (n : nat) (path : string).       (* f"Wrote {n} records to {path}" *)

Definition csv : Type := list (list json).

Record world : Type := mkWorld {
  spawned : log;
  err_stream : list line;
  out_stream : list line;
  files : list (string * csv)     (* most recent write first *)
}.

(** What writing the report comes to.  [open] or [writerow] may raise (a
    path that cannot be opened, text that cannot be encoded, a full
    disk); [left_behind] is what a failed write leaves at the path, if it got as
    far as creating the file. *)
Inductive write_result : Type :=
| Written
| WriteRaised (exc : exn) (left_behind : option csv).

(** The file system: the outcome of writing a content to a path, given the
    files there are. *)
Variable fs : list (string * csv) -> string -> csv -> write_result.

Definition with_files (fl : list (string * csv)) (w : world) : world :=
  mkWorld (spawned w) (err_stream w) (out_stream w) fl.

Definition write_csv (path : string) (records : list VmRecord) (w : world)
  : result unit * world :=
  let content := CSV_HEADERS :: map to_row records in
  match fs (files w) path content with
  | Written => (Ok tt, with_files ((path, content) :: files w) w)
  | WriteRaised exc left_behind =>
      (Raise exc,
       with_files (match left_behind with
                   | Some partial => (path, partial) :: files w
                   | None => files w
                   end) w)
  end.

Definition eprint (ln : line) (w : world) : world :=
  mkWorld (spawned w) (err_stream w ++ [ln]) (out_stream w) (files w).

Definition print (ln : line) (w : world) : world :=
  mkWorld (spawned w) (err_stream w) (out_stream w ++ [ln]) (files w).

Definition with_log (l : log) (w : world) : world :=
  mkWorld l (err_stream w) (out_stream w) (files w).

(** [try: records.extend(fetch(...)) except Exception as exc: print(...)] *)
Definition try_extend (fetch : M (list VmRecord)) (prefix : string)
    (records : list VmRecord) (w : world) : list VmRecord * world :=
  match fetch (spawned w) with
  | (Ok rs, l) => (records ++ rs, with_log l w)
  | (Raise exc, l) => (records, eprint (Failed prefix exc) (with_log l w))
  end.

(** [args.gcp_project or []] *)
Definition projects_of (args : Args) : list string :=
  match gcp_project args with
  | Some ps => ps
  | None => []
  end.

(** The two guarded blocks of [main]. *)
Definition collect (args : Args) (w : world) : list VmRecord * world :=
  let '(records, w1) :=
    try_extend (fetch_azure_vms (azure_subscription args))
               "Failed to retrieve Azure VMs: " [] w in
  try_extend (fetch_gcp_vms (projects_of args))
             "Failed to retrieve GCP VMs: " records w1.

(** [main] returns its exit code, or lets the exception of a failed write
    through: nothing guards [write_csv]. *)
Definition main (args : Args) (w : world) : result Z * world :=
  let '(records, w2) := collect args w in
  match records with
  | [] =>
      (Ok 1%Z,
       eprint (Text "No VMs found or all queries failed; no CSV written.") w2)
  | _ =>
      match write_csv (output args) records w2 with
      | (Ok _, w3) => (Ok 0%Z, print (Wrote (length records) (output args)) w3)
      | (Raise exc, w3) => (Raise exc, w3)
      end
  end.

End Adapters.

(** * Properties *)

(** ** Record mapping *)

(** The tag (Azure, under ["tags"]) or label (GCP, under ["labels"]) that
    the provider's data carries for a machine, if any. *)
Definition source_tag (container : string) (fields : list (string * json))
    (key : string) : option json :=
  match assoc_get container fields with
  | Some (JObj tags) => assoc_get key tags
  | _ => None
  end.

(** The dict the code looks tags up in: [vm.get(container, {}) or {}]. *)
Definition effective_tags (container : string) (fields : list (string * json))
  : json :=
  py_or (match assoc_get container fields with
         | Some x => x
         | None => JObj []
         end) (JObj []).

(** The status as the specification words it. *)
Definition spec_status (fields : list (string * json)) : json :=
  match assoc_get "powerState" fields with
  | Some v => v
  | None =>
      match assoc_get "provisioningState" fields with
      | Some v => v
      | None => JStr "unknown"
      end
  end.

(** The status as the code computes it. *)
Definition code_status (fields : list (string * json)) : json :=
  let provisioning :=
    match assoc_get "provisioningState" fields with
    | Some v => v
    | None => JStr "unknown"
    end in
  match assoc_get "powerState" fields with
  | Some v => if truthy v then v else provisioning
  | None => provisioning
  end.

Definition absent_or_falsy (o : option json) : bool :=
  match o with
  | None => true
  | Some v => negb (truthy v)
  end.

(** A record mapped from a machine object by one of the two adapters;
    [container] is where that adapter reads tags from. *)
Definition mapped (container : string) (vm : json) (r : VmRecord) : Prop :=
  (container = "tags" /\ exists sid sname, azure_record sid sname vm = Ok r) \/
  (container = "labels" /\ exists project, gcp_record project vm = Ok r).

(** Columns 5, 6 and 7 of a row. *)
Definition cell (i : nat) (r : VmRecord) : json := nth i (to_row r) JNull.

(** ** Vocabulary for subscription resolution *)

(** What Python's [==] compares on a hashable value: nothing for [None],
    the number for booleans and numbers, the text for strings. *)
Inductive key_class : Type :=
| KNone
| KNumber (z : Z)
| KText (s : string).

Definition class_of (k : json) : option key_class :=
  match k with
  | JNull => Some KNone
  | JBool b => Some (KNumber (if b then 1 else 0)%Z)
  | JNum z => Some (KNumber z)
  | JStr s => Some (KText s)
  | JArr _ | JObj _ => None
  end.

(** The keys of a dict are hashable and pairwise unequal. *)
Fixpoint keys_distinctb (ks : list json) : bool :=
  match ks with
  | [] => true
  | k :: ks' =>
      hashable k && negb (existsb (key_eqb k) ks') && keys_distinctb ks'
  end.

Definition dict_wf (d : subscriptions) : Prop :=
  keys_distinctb (map fst d) = true.

Definition is_str (v : json) : bool :=
  match v with
  | JStr _ => true
  | _ => false
  end.

(** The annotated type [dict[str, str]]: every display name is a string. *)
Definition names_are_strings (d : subscriptions) : bool :=
  forallb (fun kv => is_str (snd kv)) d.

Definition name_matches (lower : string -> string) (value : string)
    (kv : json * json) : bool :=
  match snd kv with
  | JStr n => String.eqb (lower n) (lower value)
  | _ => false
  end.

(** A requested value names a subscription: it is one of the IDs, or it
    equals one of the display names up to case. *)
Definition matches (lower : string -> string) (all_subscriptions : subscriptions)
    (value : string) : bool :=
  match dict_get key_eqb (JStr value) all_subscriptions with
  | Some _ => true
  | None => existsb (name_matches lower value) all_subscriptions
  end.

(** How often a key occurs among the entries of a dict. *)
Definition occurrences (k : json) (d : subscriptions) : nat :=
  length (filter (fun kv => key_eqb k (fst kv)) d).

(** Every entry of [resolved] carries the name [all_subscriptions] has
    for its key. *)
Definition agrees (all_subscriptions resolved : subscriptions) : Prop :=
  forall k nm,
    dict_get key_eqb k resolved = Some nm ->
    dict_get key_eqb k all_subscriptions = Some nm.

(** The key under which the resolution loop files a requested value. *)
Definition key_for (lower : string -> string) (all_subscriptions : subscriptions)
    (id_by_name : list (string * json)) (value : string) : option json :=
  match dict_get key_eqb (JStr value) all_subscriptions with
  | Some _ => Some (JStr value)
  | None => dict_get String.eqb (lower value) id_by_name
  end.

(** ** Vocabulary for the adapters and the orchestrator *)

(** The records a fetch contributes: its result, or nothing if it raised. *)
Definition produced {A} (r : result (list A)) : list A :=
  match r with
  | Ok rs => rs
  | Raise _ => []
  end.

(** The records of one GCP project, listed by the command spawned as
    number [i]. *)
Definition gcp_listing (strip : string -> string)
    (json_loads : string -> option json)
    (cli : nat -> command -> result completed) (i : nat) (project : string)
  : result (list VmRecord) :=
  (vm_list <- outcome_json strip json_loads (gcloud_instances_list project)
                (cli i (gcloud_instances_list project)) ;;
   vms <- py_iter vm_list ;;
   append_records (gcp_record project) vms [])%res.

(** The records of one Azure subscription, listed by the command spawned
    as number [i]. *)
Definition azure_listing (strip : string -> string)
    (json_loads : string -> option json)
    (cli : nat -> command -> result completed) (i : nat) (scope : json * json)
  : result (list VmRecord) :=
  match fst scope with
  | JStr sid =>
      (vm_list <- outcome_json strip json_loads (az_vm_list sid)
                    (cli i (az_vm_list sid)) ;;
       vms <- py_iter vm_list ;;
       append_records (azure_record (fst scope) (snd scope)) vms [])%res
  | _ => Raise TypeError
  end.

(** [records] is the concatenation of one listing per scope, in the order
    of [scopes]; the listing of scope number [i] is the one made by the
    command spawned as number [first + i]. *)
Definition listed_in_order {A} (listing : nat -> A -> result (list VmRecord))
    (first : nat) (scopes : list A) (records : list VmRecord) : Prop :=
  exists per_scope : list (list VmRecord),
    length per_scope = length scopes /\
    records = concat per_scope /\
    forall i x, nth_error scopes i = Some x ->
      exists rs, nth_error per_scope i = Some rs /\ listing (first + i) x = Ok rs.

(** The line a guarded block of [main] prints when its fetch raised. *)
Definition diagnostic {A} (prefix : string) (r : result A) : list line :=
  match r with
  | Ok _ => []
  | Raise exc => [Failed prefix exc]
  end.

(** A small world to run the model in: two subscriptions, one project.
    The standard output of a command is a token that [example_loads]
    decodes. *)
Definition example_loads (out : string) : option json :=
  if String.eqb out "accounts" then
    Some (JArr [JObj [("id", JStr "s-1"); ("name", JStr "Prod")];
                JObj [("id", JStr "s-2"); ("name", JStr "Dev")]])
  else if String.eqb out "vms-1" then
    Some (JArr [JObj [("name", JStr "web"); ("resourceGroup", JStr "rg");
                      ("powerState", JStr "VM running");
                      ("tags", JObj [("owner", JStr "ops")])];
                JObj [("name", JStr "db"); ("resourceGroup", JStr "rg");
                      ("provisioningState", JStr "Succeeded")]])
  else if String.eqb out "vms-2" then Some (JArr [])
  else if String.eqb out "instances" then
    Some (JArr [JObj [("name", JStr "gce"); ("status", JStr "RUNNING");
                      ("labels", JObj [("environment", JStr "dev")])]])
  else None.

Definition command_eqb (a b : command) : bool :=
  if list_eq_dec string_dec a b then true else false.

(** A line feed, as the clients end their messages. *)
Definition nl : string := String (ascii_of_nat 10) EmptyString.

Definition example_cli (i : nat) (cmd : command) : result completed :=
  if command_eqb cmd az_account_list then Ok (mkCompleted 0 "accounts" "")
  else if command_eqb cmd (az_vm_list "s-1") then Ok (mkCompleted 0 "vms-1" "")
  else if command_eqb cmd (az_vm_list "s-2") then Ok (mkCompleted 0 "vms-2" "")
  else if command_eqb cmd (gcloud_instances_list "proj-a")
       then Ok (mkCompleted 0 "instances" "")
  else Ok (mkCompleted 1 "" ("not found" ++ nl)).


(** ASCII instance of [str.strip]. *)
Definition ascii_space (c : ascii) : bool :=
  let n := nat_of_ascii c in
  orb (andb (Nat.leb 9 n) (Nat.leb n 13))
      (andb (Nat.leb 28 n) (Nat.leb n 32)).

Fixpoint ascii_lstrip (s : string) : string :=
  match s with
  | EmptyString => EmptyString
  | String c s' => if ascii_space c then ascii_lstrip s' else s
  end.

Fixpoint ascii_rstrip (s : string) : string :=
  match s with
  | EmptyString => EmptyString
  | String c s' =>
      match ascii_rstrip s' with
      | EmptyString => if ascii_space c then EmptyString
                       else String c EmptyString
      | r => String c r
      end
  end.

Definition ascii_strip (s : string) : string := ascii_rstrip (ascii_lstrip s).

(** A file system on which every path can be written but the empty one,
    which [open] refuses. *)
Definition example_fs (present : list (string * csv)) (path : string)
    (content : csv) : write_result :=
  if String.eqb path "" then WriteRaised OSError None else Written.

Definition empty_world : world := mkWorld [] [] [] [].

(** ** Vocabulary for further properties *)

Definition is_obj (v : json) : bool :=
  match v with
  | JObj _ => true
  | _ => false
  end.

(** The tags (or labels) of a machine can be read: the field is absent,
    falsy, or a dict. *)
Definition tags_usable (container : string) (fields : list (string * json))
  : bool :=
  match assoc_get container fields with
  | Some t => negb (truthy t) || is_obj t
  | None => true
  end.

(** The keys of [ks] that equal none of [seen] nor an earlier key of
    [ks], in their order. *)
Fixpoint first_occurrences (ks seen : list json) : list json :=
  match ks with
  | [] => []
  | k :: ks' =>
      if existsb (key_eqb k) seen then first_occurrences ks' seen
      else k :: first_occurrences ks' (seen ++ [k])
  end.

(** The entry an account object contributes to the ID-to-name map: its
    ID, and its name or else its ID. *)
Definition account_entry (account : json) : option (json * json) :=
  match account with
  | JObj fields =>
      match assoc_get "id" fields with
      | Some k =>
          Some (k, match assoc_get "name" fields with
                   | Some n => n
                   | None => k
                   end)
      | None => None
      end
  | _ => None
  end.

(** The last subscription of the map whose display name equals [value]
    up to case. *)
Definition last_name_match (lower : string -> string)
    (all_subscriptions : subscriptions) (value : string)
  : option (json * json) :=
  find (name_matches lower value) (rev all_subscriptions).

(** The key a requested value stands for: itself when it is an ID,
    otherwise the ID of the last subscription it names. *)
Definition requested_key (lower : string -> string)
    (all_subscriptions : subscriptions) (value : string) : option json :=
  match dict_get key_eqb (JStr value) all_subscriptions with
  | Some _ => Some (JStr value)
  | None => option_map fst (last_name_match lower all_subscriptions value)
  end.

(** An account the ID-to-name map can take: an object with a hashable
    ID. *)
Definition account_ok (account : json) : bool :=
  match account_entry account with
  | Some (k, _) => hashable k
  | None => false
  end.

(** What the comprehension raises on an account it cannot take. *)
Definition account_error (account : json) : exn :=
  match account with
  | JObj fields =>
      match assoc_get "id" fields with
      | None => KeyError (JStr "id")
      | Some _ => TypeError
      end
  | _ => TypeError
  end.

(** The name the last of [entries] with key [k] carries. *)
Definition last_name_of (k : json) (entries : subscriptions) : option json :=
  option_map snd (find (fun e => key_eqb k (fst e)) (rev entries)).

(** The three kinds of command the program ever spawns. *)
Definition is_listing_command (cmd : command) : Prop :=
  cmd = az_account_list \/
  (exists sid, cmd = az_vm_list sid) \/
  (exists project, cmd = gcloud_instances_list project).

Lemma py_or_empty (v : json) :
  py_or v (JStr "") = JStr "" <-> truthy v = false.
Proof.
  unfold py_or. destruct (truthy v) eqn:E.
  - split; [intros ->; discriminate E | discriminate].
  - tauto.
Qed.

Lemma effective_tags_get container fields key v :
  py_get (effective_tags container fields) key JNull = Ok v ->
  v = match source_tag container fields key with
      | Some x => x
      | None => JNull
      end.
Proof.
  unfold effective_tags, source_tag, py_or.
  destruct (assoc_get container fields) as [t|]; cbn.
  - destruct t as [ |b|z|s|l|l]; cbn.
    + intros [= <-]; reflexivity.
    + destruct b; cbn; [discriminate | intros [= <-]; reflexivity].
    + destruct (Z.eqb z 0); cbn; [intros [= <-]; reflexivity | discriminate].
    + destruct (String.eqb s ""); cbn; [intros [= <-]; reflexivity | discriminate].
    + destruct l; cbn; [intros [= <-]; reflexivity | discriminate].
    + destruct l; cbn; [intros [= <-]; reflexivity | ].
      intros [= <-]; reflexivity.
  - intros [= <-]; reflexivity.
Qed.

Lemma azure_record_inv sid sname fields r :
  azure_record sid sname (JObj fields) = Ok r ->
  exists ow cd en,
    py_get (effective_tags "tags" fields) "owner" JNull = Ok ow /\
    py_get (effective_tags "tags" fields) "cleardata" JNull = Ok cd /\
    py_get (effective_tags "tags" fields) "environment" JNull = Ok en /\
    r = mkVmRecord "azure" (py_or sname sid)
          (match assoc_get "resourceGroup" fields with Some x => x | None => JStr "" end)
          (match assoc_get "name" fields with Some x => x | None => JStr "" end)
          (code_status fields) ow cd en.
Proof.
  unfold azure_record. cbn [py_get rbind].
  fold (effective_tags "tags" fields).
  intros H.
  assert (St : (if truthy (match assoc_get "powerState" fields with
                           | Some x => x | None => JNull end)
                then Ok (match assoc_get "powerState" fields with
                         | Some x => x | None => JNull end)
                else Ok (match assoc_get "provisioningState" fields with
                         | Some x => x | None => JStr "unknown" end))
               = Ok (code_status fields)).
  { unfold code_status. destruct (assoc_get "powerState" fields) as [v|]; cbn.
    - destruct (truthy v); reflexivity.
    - reflexivity. }
  rewrite St in H. cbn [rbind] in H.
  destruct (py_get (effective_tags "tags" fields) "owner" JNull) as [ow|]; [|discriminate].
  destruct (py_get (effective_tags "tags" fields) "cleardata" JNull) as [cd|]; [|discriminate].
  destruct (py_get (effective_tags "tags" fields) "environment" JNull) as [en|]; [|discriminate].
  cbn in H. injection H as <-. exists ow, cd, en. auto.
Qed.

Lemma gcp_record_inv project fields r :
  gcp_record project (JObj fields) = Ok r ->
  exists ow cd en,
    py_get (effective_tags "labels" fields) "owner" JNull = Ok ow /\
    py_get (effective_tags "labels" fields) "cleardata" JNull = Ok cd /\
    py_get (effective_tags "labels" fields) "environment" JNull = Ok en /\
    r = mkVmRecord "gcp" (JStr project) (JStr project)
          (match assoc_get "name" fields with Some x => x | None => JStr "" end)
          (match assoc_get "status" fields with Some x => x | None => JStr "unknown" end)
          ow cd en.
Proof.
  unfold gcp_record. cbn [py_get rbind].
  fold (effective_tags "labels" fields).
  intros H.
  destruct (py_get (effective_tags "labels" fields) "owner" JNull) as [ow|]; [|discriminate].
  destruct (py_get (effective_tags "labels" fields) "cleardata" JNull) as [cd|]; [|discriminate].
  destruct (py_get (effective_tags "labels" fields) "environment" JNull) as [en|]; [|discriminate].
  cbn in H. injection H as <-. exists ow, cd, en. auto.
Qed.

(** C1 (as stated, refuted): a machine whose power-state field is present
    but empty does not get that field as its status; the code falls
    through to the provisioning state. *)
Lemma C1_status_counterexample :
  let fields := [("name", JStr "vm1"); ("powerState", JStr "");
                 ("provisioningState", JStr "Succeeded")] in
  exists r,
    azure_record (JStr "s-1") (JStr "Prod") (JObj fields) = Ok r /\
    assoc_get "powerState" fields = Some (JStr "") /\
    status r = JStr "Succeeded" /\
    status r <> spec_status fields.
Proof.
  cbv zeta. eexists. split; [reflexivity|].
  split; [reflexivity|]. split; [reflexivity|].
  cbn. discriminate.
Qed.

(** C1 (amended): the status of a mapped Azure record is the power-state
    field when that field is present with a truthy value, otherwise the
    value of the provisioning-state field when that key is present,
    otherwise the literal "unknown". *)
Theorem C1_status_fallback sid sname fields r :
  azure_record sid sname (JObj fields) = Ok r ->
  status r = code_status fields /\
  (forall v, assoc_get "powerState" fields = Some v -> truthy v = true ->
             status r = v) /\
  ((assoc_get "powerState" fields = None \/
    exists v, assoc_get "powerState" fields = Some v /\ truthy v = false) ->
   (forall p, assoc_get "provisioningState" fields = Some p -> status r = p) /\
   (assoc_get "provisioningState" fields = None -> status r = JStr "unknown")).
Proof.
  intros H. apply azure_record_inv in H as (ow & cd & en & _ & _ & _ & ->).
  cbn [status]. unfold code_status. split; [reflexivity|]. split.
  - intros v -> ->. reflexivity.
  - intros [-> | (v & -> & ->)]; split.
    + intros p ->. reflexivity.
    + intros ->. reflexivity.
    + intros p ->. reflexivity.
    + intros ->. reflexivity.
Qed.

Lemma C1_status_fallback_witness :
  let fields := [("powerState", JStr "VM running");
                 ("provisioningState", JStr "Succeeded")] in
  let r := mkVmRecord "azure" (JStr "Prod") (JStr "") (JStr "")
                      (JStr "VM running") JNull JNull JNull in
  azure_record (JStr "s-1") (JStr "Prod") (JObj fields) = Ok r /\
  status r = code_status fields.
Proof.
  cbv zeta. split; [reflexivity|].
  exact (proj1 (C1_status_fallback (JStr "s-1") (JStr "Prod")
                  [("powerState", JStr "VM running");
                   ("provisioningState", JStr "Succeeded")] _ eq_refl)).
Defined.

(** C2 (as stated, refuted): an Azure tag that is present with an empty
    value renders as the empty string, so an empty cell does not imply an
    absent tag. *)
Lemma C2_empty_cell_counterexample :
  let fields := [("name", JStr "vm1");
                 ("tags", JObj [("owner", JStr ""); ("environment", JStr "dev")])] in
  exists r,
    azure_record (JStr "s-1") (JStr "Prod") (JObj fields) = Ok r /\
    cell 5 r = JStr "" /\
    source_tag "tags" fields "owner" <> None.
Proof.
  cbv zeta. eexists. split; [reflexivity|]. split; [reflexivity|].
  cbn. discriminate.
Qed.

(** C2 (amended): for every record mapped by either adapter, the owner,
    cleardata and environment columns of its row hold the empty string if
    and only if the corresponding tag or label is absent from the
    machine's data or present with a falsy (empty or null) value. *)
Theorem C2_optional_fields_render container fields r :
  mapped container (JObj fields) r ->
  (cell 5 r = JStr "" <->
     absent_or_falsy (source_tag container fields "owner") = true) /\
  (cell 6 r = JStr "" <->
     absent_or_falsy (source_tag container fields "cleardata") = true) /\
  (cell 7 r = JStr "" <->
     absent_or_falsy (source_tag container fields "environment") = true).
Proof.
  intros Hm.
  assert (exists ow cd en,
    py_get (effective_tags container fields) "owner" JNull = Ok ow /\
    py_get (effective_tags container fields) "cleardata" JNull = Ok cd /\
    py_get (effective_tags container fields) "environment" JNull = Ok en /\
    owner r = ow /\ cleardata r = cd /\ environment r = en)
    as (ow & cd & en & Ho & Hc & He & Eo & Ec & Ee).
  { destruct Hm as [(-> & sid & sname & H) | (-> & project & H)].
    - apply azure_record_inv in H as (ow & cd & en & ? & ? & ? & ->).
      exists ow, cd, en. cbn. auto 10.
    - apply gcp_record_inv in H as (ow & cd & en & ? & ? & ? & ->).
      exists ow, cd, en. cbn. auto 10. }
  apply effective_tags_get in Ho, Hc, He.
  unfold cell, to_row. cbn [nth]. rewrite Eo, Ec, Ee, !py_or_empty.
  subst ow cd en. unfold absent_or_falsy.
  repeat split;
    match goal with
    | |- context [source_tag ?c ?f ?k] => destruct (source_tag c f k) as [x|]
    end; cbn; try (destruct (truthy x)); cbn; intros; congruence.
Qed.

Lemma C2_optional_fields_render_witness :
  let fields := [("name", JStr "vm1"); ("tags", JObj [("owner", JStr "ops")])] in
  let r := mkVmRecord "azure" (JStr "Prod") (JStr "") (JStr "vm1")
                      (JStr "unknown") (JStr "ops") JNull JNull in
  mapped "tags" (JObj fields) r /\
  (cell 6 r = JStr "" <->
     absent_or_falsy (source_tag "tags" fields "cleardata") = true).
Proof.
  cbv zeta.
  assert (Hm : mapped "tags"
                 (JObj [("name", JStr "vm1"); ("tags", JObj [("owner", JStr "ops")])])
                 (mkVmRecord "azure" (JStr "Prod") (JStr "") (JStr "vm1")
                             (JStr "unknown") (JStr "ops") JNull JNull)).
  { left. split; [reflexivity|]. exists (JStr "s-1"), (JStr "Prod"). reflexivity. }
  split; [exact Hm|].
  exact (proj1 (proj2 (C2_optional_fields_render _ _ _ Hm))).
Defined.

(** C10: when the "tags" field of an Azure machine object, or the "labels"
    field of a GCP instance object, is absent or null, the record is
    built without raising and its owner, cleardata and environment are
    all None. *)
Theorem C10_missing_tags_are_safe sid sname project fields :
  ((assoc_get "tags" fields = None \/ assoc_get "tags" fields = Some JNull) ->
   exists r, azure_record sid sname (JObj fields) = Ok r /\
             owner r = JNull /\ cleardata r = JNull /\ environment r = JNull) /\
  ((assoc_get "labels" fields = None \/ assoc_get "labels" fields = Some JNull) ->
   exists r, gcp_record project (JObj fields) = Ok r /\
             owner r = JNull /\ cleardata r = JNull /\ environment r = JNull).
Proof.
  split; intros H.
  - unfold azure_record. cbn [py_get rbind].
    assert (E : py_or (match assoc_get "tags" fields with
                       | Some x => x | None => JObj [] end) (JObj []) = JObj []).
    { destruct H as [-> | ->]; reflexivity. }
    rewrite E. cbn.
    destruct (truthy _); cbn; eexists; (split; [reflexivity|]); cbn; auto.
  - unfold gcp_record. cbn [py_get rbind].
    assert (E : py_or (match assoc_get "labels" fields with
                       | Some x => x | None => JObj [] end) (JObj []) = JObj []).
    { destruct H as [-> | ->]; reflexivity. }
    rewrite E. cbn. eexists; (split; [reflexivity|]); cbn; auto.
Qed.

Lemma C10_missing_tags_are_safe_witness :
  (exists r, azure_record (JStr "s-1") (JStr "Prod")
               (JObj [("name", JStr "vm1"); ("tags", JNull)]) = Ok r /\
             owner r = JNull /\ cleardata r = JNull /\ environment r = JNull) /\
  (exists r, gcp_record "proj-a" (JObj [("name", JStr "vm1"); ("tags", JNull)]) = Ok r /\
             owner r = JNull /\ cleardata r = JNull /\ environment r = JNull).
Proof.
  pose proof (C10_missing_tags_are_safe (JStr "s-1") (JStr "Prod") "proj-a"
                [("name", JStr "vm1"); ("tags", JNull)]) as [Ha Hg].
  split.
  - apply Ha. right. reflexivity.
  - apply Hg. left. reflexivity.
Defined.

(** ** Equality of keys *)

Lemma key_eqb_class (a b : json) :
  key_eqb a b = true <-> class_of a = class_of b /\ class_of a <> None.
Proof.
  destruct a as [ |x|x|x|x|x], b as [ |y|y|y|y|y]; cbn;
    try (split; [discriminate | intros [E N]; congruence]);
    try (split; [intros _; split; congruence | reflexivity]).
  - rewrite Z.eqb_eq. split.
    + intros E. split; congruence.
    + intros [E _]. congruence.
  - rewrite Z.eqb_eq. split.
    + intros E. split; congruence.
    + intros [E _]. congruence.
  - rewrite Z.eqb_eq. split.
    + intros E. split; congruence.
    + intros [E _]. congruence.
  - rewrite Z.eqb_eq. split.
    + intros E. split; congruence.
    + intros [E _]. congruence.
  - rewrite String.eqb_eq. split.
    + intros E. split; congruence.
    + intros [E _]. congruence.
Qed.

Lemma key_eqb_sym (a b : json) : key_eqb a b = key_eqb b a.
Proof.
  apply Bool.eq_true_iff_eq. rewrite !key_eqb_class.
  split; intros [E N]; split; congruence.
Qed.

Lemma key_eqb_trans (a b c : json) :
  key_eqb a b = true -> key_eqb b c = true -> key_eqb a c = true.
Proof.
  rewrite !key_eqb_class. intros [E1 N1] [E2 N2]. split; congruence.
Qed.

Lemma key_eqb_refl (k : json) : hashable k = true <-> key_eqb k k = true.
Proof.
  rewrite key_eqb_class. destruct k; cbn; split;
    try discriminate; try reflexivity;
    try (intros _; split; congruence); intros [_ N]; congruence.
Qed.

Lemma key_eqb_str (s : string) (k : json) :
  key_eqb (JStr s) k = true -> k = JStr s.
Proof.
  destruct k; cbn; try discriminate.
  intros E. apply String.eqb_eq in E. congruence.
Qed.

Lemma string_eqb_trans (a b c : string) :
  String.eqb a b = true -> String.eqb b c = true -> String.eqb a c = true.
Proof. rewrite !String.eqb_eq. congruence. Qed.

(** ** Dictionaries *)

Section DictFacts.
Context {K V : Type} (eqb : K -> K -> bool).
Hypothesis eqb_sym : forall a b, eqb a b = eqb b a.
Hypothesis eqb_trans :
  forall a b c, eqb a b = true -> eqb b c = true -> eqb a c = true.

Lemma eqb_congr_r a b x : eqb a b = true -> eqb x a = eqb x b.
Proof.
  intros E. apply Bool.eq_true_iff_eq. split; intros H.
  - eapply eqb_trans; eauto.
  - rewrite eqb_sym in E. eapply eqb_trans; eauto.
Qed.

Lemma dict_get_congr a b (d : list (K * V)) :
  eqb a b = true -> dict_get eqb a d = dict_get eqb b d.
Proof.
  intros E. induction d as [|[k v] d IH]; cbn; [reflexivity|].
  rewrite (eqb_sym a k), (eqb_sym b k), (eqb_congr_r a b k E), IH.
  reflexivity.
Qed.

Lemma dict_get_set k' k v (d : list (K * V)) :
  dict_get eqb k' (dict_set eqb k v d)
  = if eqb k' k then Some v else dict_get eqb k' d.
Proof.
  induction d as [|[k0 v0] d IH]; cbn.
  - reflexivity.
  - destruct (eqb k k0) eqn:E; cbn.
    + rewrite (eqb_congr_r k k0 k' E). destruct (eqb k' k0); reflexivity.
    + rewrite IH. destruct (eqb k' k0) eqn:E0; [|reflexivity].
      destruct (eqb k' k) eqn:E1; [|reflexivity].
      rewrite eqb_sym in E1. rewrite (eqb_trans _ _ _ E1 E0) in E.
      discriminate.
Qed.

Lemma dict_get_In k v (d : list (K * V)) :
  dict_get eqb k d = Some v -> exists k', In (k', v) d /\ eqb k k' = true.
Proof.
  induction d as [|[k0 v0] d IH]; cbn; [discriminate|].
  destruct (eqb k k0) eqn:E.
  - intros [= <-]. exists k0. auto.
  - intros H. destruct (IH H) as (k' & Hin & Hk). exists k'. auto.
Qed.

Lemma dict_get_None_In k (d : list (K * V)) k' v :
  dict_get eqb k d = None -> In (k', v) d -> eqb k k' = false.
Proof.
  induction d as [|[k0 v0] d IH]; cbn; [tauto|].
  destruct (eqb k k0) eqn:E; [discriminate|].
  intros H [[= <- <-] | Hin]; auto.
Qed.

Lemma dict_set_keys k v (d : list (K * V)) :
  (dict_get eqb k d <> None /\
   map fst (dict_set eqb k v d) = map fst d) \/
  (dict_get eqb k d = None /\ dict_set eqb k v d = d ++ [(k, v)]).
Proof.
  induction d as [|[k0 v0] d IH]; cbn.
  - right. auto.
  - destruct (eqb k k0) eqn:E; cbn.
    + left. split; [discriminate | reflexivity].
    + destruct IH as [[N Ek] | [N Ek]].
      * left. split; [exact N | now rewrite Ek].
      * right. split; [exact N | now rewrite Ek].
Qed.

Lemma dict_set_In k v (d : list (K * V)) k' v' :
  In (k', v') (dict_set eqb k v d) ->
  In (k', v') d \/
  (v' = v /\ (k' = k \/ (eqb k k' = true /\ exists old, In (k', old) d))).
Proof.
  induction d as [|[k0 v0] d IH]; cbn.
  - intros [[= <- <-] | []]. auto.
  - destruct (eqb k k0) eqn:E; cbn.
    + intros [[= <- <-] | Hin]; [|auto].
      right. split; [reflexivity|]. right. split; [exact E|]. eauto.
    + intros [[= <- <-] | Hin]; [auto|].
      destruct (IH Hin) as [H | (-> & [-> | (Ek & old & Ho)])]; auto.
      right. split; [reflexivity|]. right. split; [exact Ek|]. eauto.
Qed.
End DictFacts.

(** ** Well-formed dictionaries *)

Lemma existsb_key_false (k : json) (ks : list json) :
  existsb (key_eqb k) ks = false -> forall k', In k' ks -> key_eqb k k' = false.
Proof.
  induction ks as [|k0 ks IH]; cbn; [tauto|].
  intros H k' [<- | Hin].
  - now apply Bool.orb_false_iff in H.
  - apply IH; [now apply Bool.orb_false_iff in H | exact Hin].
Qed.

Lemma keys_distinctb_cons (k : json) (ks : list json) :
  keys_distinctb (k :: ks) = true <->
  hashable k = true /\ existsb (key_eqb k) ks = false /\ keys_distinctb ks = true.
Proof.
  cbn. rewrite !Bool.andb_true_iff, Bool.negb_true_iff. tauto.
Qed.

Lemma keys_distinctb_snoc (ks : list json) (k : json) :
  keys_distinctb ks = true -> key_eqb k k = true ->
  (forall k', In k' ks -> key_eqb k k' = false) ->
  keys_distinctb (ks ++ [k]) = true.
Proof.
  intros Hd Hk Hn. induction ks as [|k0 ks IH]; cbn [app].
  - apply keys_distinctb_cons. split; [now apply key_eqb_refl | auto].
  - apply keys_distinctb_cons in Hd as (Hh & He & Hd).
    apply keys_distinctb_cons. split; [exact Hh | split].
    + rewrite existsb_app, He. cbn.
      rewrite key_eqb_sym, (Hn k0 (or_introl eq_refl)). reflexivity.
    + apply IH; [exact Hd | intros k' Hin; apply Hn; now right].
Qed.

Lemma dict_wf_get_In (d : subscriptions) (k v : json) :
  dict_wf d -> In (k, v) d -> dict_get key_eqb k d = Some v.
Proof.
  unfold dict_wf. induction d as [|[k0 v0] d IH]; cbn [map fst]; [intros _ []|].
  intros Hd Hin. apply keys_distinctb_cons in Hd as (Hh & He & Hd).
  cbn [dict_get]. destruct Hin as [[= <- <-] | Hin].
  - apply key_eqb_refl in Hh. now rewrite Hh.
  - assert (E : key_eqb k k0 = false).
    { rewrite key_eqb_sym. eapply existsb_key_false; [exact He|].
      change k with (fst (k, v)). now apply in_map. }
    rewrite E. now apply IH.
Qed.

Lemma dict_wf_set (d : subscriptions) (k v : json) :
  dict_wf d -> key_eqb k k = true -> dict_wf (dict_set key_eqb k v d).
Proof.
  unfold dict_wf. intros Hd Hk.
  destruct (dict_set_keys key_eqb k v d) as [[_ E] | [N E]].
  - now rewrite E.
  - rewrite E, map_app. cbn [map fst]. apply keys_distinctb_snoc; auto.
    intros k' Hin. apply in_map_iff in Hin as ([k1 v1] & <- & Hin).
    eapply dict_get_None_In; eauto.
Qed.

Lemma keys_distinctb_NoDup (ks : list json) :
  keys_distinctb ks = true -> NoDup ks.
Proof.
  induction ks as [|k ks IH]; [constructor|].
  intros Hd. apply keys_distinctb_cons in Hd as (Hh & He & Hd).
  constructor; [|auto].
  intros Hin. apply key_eqb_refl in Hh.
  rewrite (existsb_key_false _ _ He k Hin) in Hh. discriminate.
Qed.

Lemma occurrences_le_1 (d : subscriptions) (k : json) :
  dict_wf d -> occurrences k d <= 1.
Proof.
  unfold dict_wf, occurrences.
  induction d as [|[k0 v0] d IH]; cbn [map fst filter]; [cbn; lia|].
  intros Hd. apply keys_distinctb_cons in Hd as (Hh & He & Hd).
  destruct (key_eqb k k0) eqn:E; [|auto].
  assert (F : filter (fun kv => key_eqb k (fst kv)) d = []).
  { clear IH. induction d as [|[k1 v1] d IHd]; [reflexivity|].
    cbn [map fst existsb] in He. apply Bool.orb_false_iff in He as [E1 He].
    apply keys_distinctb_cons in Hd as (_ & _ & Hd).
    cbn [filter fst].
    destruct (key_eqb k k1) eqn:E2; [|auto].
    rewrite key_eqb_sym in E.
    rewrite (key_eqb_trans _ _ _ E E2) in E1. discriminate. }
  rewrite F. cbn. lia.
Qed.

Lemma dict_wf_key_unique (d : subscriptions) k1 v1 k2 v2 :
  dict_wf d -> In (k1, v1) d -> In (k2, v2) d -> key_eqb k1 k2 = true ->
  k1 = k2 /\ v1 = v2.
Proof.
  intros Hw H1 H2 E.
  pose proof (dict_wf_get_In d k1 v1 Hw H1) as G1.
  pose proof (dict_wf_get_In d k2 v2 Hw H2) as G2.
  rewrite (dict_get_congr key_eqb key_eqb_sym key_eqb_trans k1 k2 d E) in G1.
  assert (v1 = v2) as -> by congruence. split; [|reflexivity].
  unfold dict_wf in Hw. clear G1 G2.
  induction d as [|[k0 v0] d IH]; [destruct H1|].
  cbn [map fst] in Hw. apply keys_distinctb_cons in Hw as (Hh & He & Hd).
  assert (Hk : forall k v, In (k, v) d -> key_eqb k0 k = false).
  { intros k v Hin. eapply existsb_key_false; [exact He|].
    change k with (fst (k, v)). now apply in_map. }
  destruct H1 as [E1 | H1]; destruct H2 as [E2 | H2].
  - congruence.
  - injection E1 as -> _. rewrite (Hk _ _ H2) in E. discriminate.
  - injection E2 as -> _. rewrite key_eqb_sym, (Hk _ _ H1) in E. discriminate.
  - now apply IH.
Qed.

(** ** The name index *)

Section ResolveFacts.
Variable lower : string -> string.

Lemma build_id_by_name_total (items : subscriptions) acc :
  names_are_strings items = true ->
  exists m, build_id_by_name lower items acc = Ok m.
Proof.
  revert acc. induction items as [|[k v] items IH]; intros acc; cbn.
  - eauto.
  - rewrite Bool.andb_true_iff. intros [Hs Hr].
    destruct v; try discriminate Hs. apply IH, Hr.
Qed.

Lemma build_id_by_name_sound (items : subscriptions) acc m l id :
  build_id_by_name lower items acc = Ok m ->
  dict_get String.eqb l m = Some id ->
  dict_get String.eqb l acc = Some id \/
  exists n, In (id, JStr n) items /\ lower n = l.
Proof.
  revert acc. induction items as [|[k v] items IH]; intros acc; cbn.
  - intros [= <-]. auto.
  - destruct v; try discriminate. intros Hb Hg.
    destruct (IH _ Hb Hg) as [Ha | (n & Hin & Hn)].
    + rewrite (dict_get_set String.eqb String.eqb_sym string_eqb_trans) in Ha.
      destruct (String.eqb l (lower s)) eqn:E.
      * apply String.eqb_eq in E. injection Ha as <-.
        right. exists s. auto.
      * auto.
    + right. exists n. auto.
Qed.

Lemma build_id_by_name_complete (items : subscriptions) acc m l :
  build_id_by_name lower items acc = Ok m ->
  dict_get String.eqb l acc <> None \/
  (exists id n, In (id, JStr n) items /\ lower n = l) ->
  dict_get String.eqb l m <> None.
Proof.
  revert acc. induction items as [|[k v] items IH]; intros acc; cbn.
  - intros [= <-] [H | (id & n & [] & _)]. exact H.
  - destruct v; try discriminate. intros Hb H.
    apply (IH _ Hb).
    rewrite (dict_get_set String.eqb String.eqb_sym string_eqb_trans).
    destruct (String.eqb l (lower s)) eqn:E; [left; discriminate|].
    destruct H as [H | (id & n & [[= <- <-] | Hin] & Hn)].
    + auto.
    + subst l. rewrite String.eqb_refl in E. discriminate.
    + right. eauto.
Qed.
End ResolveFacts.

(** ** The resolution loop *)

Lemma name_matches_exists lower (d : subscriptions) (v : string) :
  existsb (name_matches lower v) d = true <->
  exists id n, In (id, JStr n) d /\ lower n = lower v.
Proof.
  rewrite existsb_exists. split.
  - intros ([id nm] & Hin & Hm). unfold name_matches in Hm. cbn in Hm.
    destruct nm; try discriminate. apply String.eqb_eq in Hm. eauto.
  - intros (id & n & Hin & Hn). exists (id, JStr n). split; [exact Hin|].
    unfold name_matches. cbn. now apply String.eqb_eq.
Qed.

Section ResolveLoop.
Variable lower : string -> string.
Variable all_subscriptions : subscriptions.
Variable id_by_name : list (string * json).
Hypothesis all_wf : dict_wf all_subscriptions.
Hypothesis index_sound :
  forall l id, dict_get String.eqb l id_by_name = Some id ->
               exists n, In (id, JStr n) all_subscriptions /\ lower n = l.
Hypothesis index_complete :
  forall id n, In (id, JStr n) all_subscriptions ->
               dict_get String.eqb (lower n) id_by_name <> None.

Lemma known_key_refl k nm :
  dict_get key_eqb k all_subscriptions = Some nm -> key_eqb k k = true.
Proof.
  intros H. apply dict_get_In in H as (k' & _ & E).
  eapply key_eqb_trans; [exact E|]. now rewrite key_eqb_sym.
Qed.

Lemma store_ok k nm resolved :
  dict_get key_eqb k all_subscriptions = Some nm ->
  agrees all_subscriptions resolved -> dict_wf resolved ->
  agrees all_subscriptions (dict_set key_eqb k nm resolved) /\
  dict_wf (dict_set key_eqb k nm resolved) /\
  dict_get key_eqb k (dict_set key_eqb k nm resolved) = Some nm /\
  (forall k', dict_get key_eqb k' resolved <> None ->
              dict_get key_eqb k' (dict_set key_eqb k nm resolved) <> None).
Proof.
  intros Hk Ha Hw. pose proof (known_key_refl _ _ Hk) as Hr.
  repeat split.
  - intros k' nm'. rewrite (dict_get_set key_eqb key_eqb_sym key_eqb_trans).
    destruct (key_eqb k' k) eqn:E.
    + intros [= <-].
      now rewrite (dict_get_congr key_eqb key_eqb_sym key_eqb_trans k' k _ E).
    + apply Ha.
  - now apply dict_wf_set.
  - rewrite (dict_get_set key_eqb key_eqb_sym key_eqb_trans), Hr. reflexivity.
  - intros k'. rewrite (dict_get_set key_eqb key_eqb_sym key_eqb_trans).
    destruct (key_eqb k' k); [discriminate | auto].
Qed.

Lemma indexed_id_known l sub_id :
  dict_get String.eqb l id_by_name = Some sub_id ->
  exists n, In (sub_id, JStr n) all_subscriptions /\ lower n = l /\
            dict_get key_eqb sub_id all_subscriptions = Some (JStr n).
Proof.
  intros H. destruct (index_sound _ _ H) as (n & Hin & Hn).
  exists n. repeat split; auto. now apply dict_wf_get_In.
Qed.

Lemma resolve_loop_ok values : forall resolved res,
  resolve_loop lower values all_subscriptions id_by_name resolved = Ok res ->
  agrees all_subscriptions resolved -> dict_wf resolved ->
  agrees all_subscriptions res /\ dict_wf res /\
  (forall k, dict_get key_eqb k resolved <> None ->
             dict_get key_eqb k res <> None) /\
  (forall v, In v values ->
     exists k, key_for lower all_subscriptions id_by_name v = Some k /\
               dict_get key_eqb k res <> None).
Proof.
  induction values as [|value rest IH]; intros resolved res; cbn [resolve_loop].
  - intros [= <-] Ha Hw. repeat split; auto. intros v [].
  - intros H Ha Hw.
    assert (Step : exists k nm,
      key_for lower all_subscriptions id_by_name value = Some k /\
      dict_get key_eqb k all_subscriptions = Some nm /\
      resolve_loop lower rest all_subscriptions id_by_name
                   (dict_set key_eqb k nm resolved) = Ok res).
    { unfold key_for.
      destruct (dict_get key_eqb (JStr value) all_subscriptions) as [nm|] eqn:E1.
      - exists (JStr value), nm. auto.
      - destruct (dict_get String.eqb (lower value) id_by_name) as [sid|] eqn:E2;
          [|discriminate].
        destruct (dict_get key_eqb sid all_subscriptions) as [nm|] eqn:E3;
          [|discriminate].
        exists sid, nm. auto. }
    destruct Step as (k & nm & Hkey & Hk & Hrest).
    destruct (store_ok k nm resolved Hk Ha Hw) as (Ha' & Hw' & Hg & Hm).
    destruct (IH _ _ Hrest Ha' Hw') as (Har & Hwr & Hmr & Hpr).
    repeat split; auto.
    intros v [<- | Hin]; [|auto].
    exists k. split; [exact Hkey|]. apply Hmr. rewrite Hg. discriminate.
Qed.

Lemma resolve_loop_total values : forall resolved,
  forallb (matches lower all_subscriptions) values = true ->
  exists res,
    resolve_loop lower values all_subscriptions id_by_name resolved = Ok res.
Proof.
  induction values as [|value rest IH]; intros resolved; cbn [resolve_loop forallb].
  - eauto.
  - rewrite Bool.andb_true_iff. intros [Hm Hr]. unfold matches in Hm.
    destruct (dict_get key_eqb (JStr value) all_subscriptions) as [nm|] eqn:E1.
    + apply IH, Hr.
    + apply name_matches_exists in Hm as (id & n & Hin & Hn).
      pose proof (index_complete _ _ Hin) as Hc. rewrite Hn in Hc.
      destruct (dict_get String.eqb (lower value) id_by_name) as [sid|] eqn:E2;
        [|congruence].
      destruct (indexed_id_known _ _ E2) as (n' & _ & _ & ->).
      apply IH, Hr.
Qed.

Lemma resolve_loop_unknown values : forall resolved v,
  In v values -> matches lower all_subscriptions v = false ->
  exists v',
    resolve_loop lower values all_subscriptions id_by_name resolved
      = Raise (unknown_subscription v') /\
    In v' values /\ matches lower all_subscriptions v' = false.
Proof.
  induction values as [|value rest IH]; intros resolved v; [intros []|].
  intros Hin Hv. cbn [resolve_loop].
  assert (Next : forall r,
    matches lower all_subscriptions value = true ->
    exists v',
      resolve_loop lower rest all_subscriptions id_by_name r
        = Raise (unknown_subscription v') /\
      In v' (value :: rest) /\ matches lower all_subscriptions v' = false).
  { intros r Hm. destruct Hin as [-> | Hin]; [congruence|].
    destruct (IH r v Hin Hv) as (v' & E & Hin' & Hm').
    exists v'. repeat split; auto. now right. }
  destruct (dict_get key_eqb (JStr value) all_subscriptions) as [nm|] eqn:E1.
  - apply Next. unfold matches. now rewrite E1.
  - destruct (dict_get String.eqb (lower value) id_by_name) as [sid|] eqn:E2.
    + destruct (indexed_id_known _ _ E2) as (n' & Hin' & Hn' & ->).
      apply Next. unfold matches. rewrite E1.
      apply name_matches_exists. eauto.
    + exists value. repeat split; [now left|].
      unfold matches. rewrite E1.
      destruct (existsb (name_matches lower value) all_subscriptions) eqn:E3;
        [|reflexivity].
      apply name_matches_exists in E3 as (id & n & Hin' & Hn).
      pose proof (index_complete _ _ Hin') as Hc. rewrite Hn in Hc. congruence.
Qed.

Lemma store_entries k nm resolved :
  In (k, nm) all_subscriptions ->
  incl resolved all_subscriptions ->
  incl (dict_set key_eqb k nm resolved) all_subscriptions.
Proof.
  intros Hk Hi [k' v'] Hin.
  apply (dict_set_In key_eqb) in Hin
    as [Hin | (-> & [-> | (E & old & Ho)])]; auto.
  destruct (dict_wf_key_unique _ _ _ _ _ all_wf Hk (Hi _ Ho) E) as [<- _].
  exact Hk.
Qed.

Lemma resolve_loop_entries values : forall resolved res,
  resolve_loop lower values all_subscriptions id_by_name resolved = Ok res ->
  incl resolved all_subscriptions -> incl res all_subscriptions.
Proof.
  induction values as [|value rest IH]; intros resolved res; cbn [resolve_loop].
  - intros [= <-]. auto.
  - destruct (dict_get key_eqb (JStr value) all_subscriptions) as [nm|] eqn:E1.
    + intros H Hi. apply (IH _ _ H). apply store_entries; [|exact Hi].
      apply dict_get_In in E1 as (k' & Hin & E).
      now rewrite <- (key_eqb_str _ _ E).
    + destruct (dict_get String.eqb (lower value) id_by_name) as [sid|] eqn:E2;
        [|discriminate].
      destruct (indexed_id_known _ _ E2) as (n & Hin & _ & ->).
      intros H Hi. apply (IH _ _ H). now apply store_entries.
Qed.
End ResolveLoop.

(** ** Resolution as a whole *)

Lemma resolve_filtered lower (all_subscriptions : subscriptions) v vs r :
  resolve_requested_subscriptions lower (Some (v :: vs)) all_subscriptions = r ->
  (exists e, build_id_by_name lower all_subscriptions [] = Raise e /\ r = Raise e) \/
  (exists id_by_name,
     build_id_by_name lower all_subscriptions [] = Ok id_by_name /\
     (forall l id, dict_get String.eqb l id_by_name = Some id ->
                   exists n, In (id, JStr n) all_subscriptions /\ lower n = l) /\
     (forall id n, In (id, JStr n) all_subscriptions ->
                   dict_get String.eqb (lower n) id_by_name <> None) /\
     r = resolve_loop lower (v :: vs) all_subscriptions id_by_name []).
Proof.
  unfold resolve_requested_subscriptions.
  destruct (build_id_by_name lower all_subscriptions []) as [m|e] eqn:B;
    cbn [rbind]; intros <-.
  - right. exists m. repeat split.
    + intros l id H.
      destruct (build_id_by_name_sound lower _ _ _ _ _ B H) as [H0 | H0];
        [discriminate H0 | exact H0].
    + intros id n Hin.
      apply (build_id_by_name_complete lower _ _ _ _ B). right. eauto.
  - left. eauto.
Qed.

Lemma occurrences_ge_1 (d : subscriptions) k v :
  In (k, v) d -> key_eqb k k = true -> 1 <= occurrences k d.
Proof.
  intros Hin Hk. unfold occurrences.
  assert (H : In (k, v) (filter (fun kv => key_eqb k (fst kv)) d)).
  { apply filter_In. auto. }
  destruct (filter _ d); [destruct H | cbn; lia].
Qed.

(** What resolution yields for one requested value, once it has succeeded. *)
Lemma resolved_entry lower (all_subscriptions : subscriptions) values res v :
  dict_wf all_subscriptions -> values <> [] ->
  resolve_requested_subscriptions lower (Some values) all_subscriptions = Ok res ->
  In v values ->
  dict_wf res /\ incl res all_subscriptions /\
  (forall nm, dict_get key_eqb (JStr v) all_subscriptions = Some nm ->
              In (JStr v, nm) res) /\
  (dict_get key_eqb (JStr v) all_subscriptions = None ->
   exists sub_id n, In (sub_id, JStr n) all_subscriptions /\
                    lower n = lower v /\ In (sub_id, JStr n) res).
Proof.
  intros Hw Hne Hr Hin. destruct values as [|v0 vs]; [congruence|].
  apply resolve_filtered in Hr
    as [(e & _ & [=]) | (ix & _ & Hs & Hc & Hr)].
  symmetry in Hr.
  assert (Ha0 : agrees all_subscriptions []) by (intros k nm; discriminate).
  assert (Hw0 : dict_wf []) by reflexivity.
  destruct (resolve_loop_ok lower _ ix _ _ _ Hr Ha0 Hw0)
    as (Ha & Hwr & _ & Hp).
  assert (Hi : incl res all_subscriptions).
  { eapply (resolve_loop_entries lower _ ix Hw Hs); [exact Hr|].
    intros x []. }
  destruct (Hp v Hin) as (k & Hk & Hg). unfold key_for in Hk.
  repeat split; auto.
  - intros nm E. rewrite E in Hk. injection Hk as <-.
    destruct (dict_get key_eqb (JStr v) res) as [nm'|] eqn:G; [|congruence].
    pose proof (Ha _ _ G) as G'. assert (nm' = nm) as -> by congruence.
    apply dict_get_In in G as (k' & Hk' & E').
    now rewrite <- (key_eqb_str _ _ E').
  - intros E. rewrite E in Hk.
    destruct (indexed_id_known lower _ ix Hw Hs _ _ Hk) as (n & Hn1 & Hn2 & Hn3).
    exists k, n. repeat split; auto.
    destruct (dict_get key_eqb k res) as [nm'|] eqn:G; [|congruence].
    pose proof (Ha _ _ G) as G'. assert (nm' = JStr n) as -> by congruence.
    apply dict_get_In in G as (k' & Hk' & E').
    destruct (dict_wf_key_unique _ _ _ _ _ Hw Hn1 (Hi _ Hk') E') as [<- _].
    exact Hk'.
Qed.

Lemma resolve_total lower (all_subscriptions : subscriptions) values :
  dict_wf all_subscriptions -> names_are_strings all_subscriptions = true ->
  forallb (matches lower all_subscriptions) values = true ->
  exists res,
    resolve_requested_subscriptions lower (Some values) all_subscriptions = Ok res.
Proof.
  intros Hw Hs Hm. destruct values as [|v vs]; [cbn; eauto|].
  destruct (build_id_by_name_total lower all_subscriptions [] Hs) as (ix & B).
  destruct (resolve_filtered lower all_subscriptions v vs _ eq_refl)
    as [(e & B' & _) | (ix' & _ & S & C & ->)]; [congruence|].
  now apply resolve_loop_total.
Qed.

Lemma resolve_unknown lower (all_subscriptions : subscriptions) values v :
  dict_wf all_subscriptions -> names_are_strings all_subscriptions = true ->
  In v values -> matches lower all_subscriptions v = false ->
  exists v',
    resolve_requested_subscriptions lower (Some values) all_subscriptions
      = Raise (unknown_subscription v') /\
    In v' values /\ matches lower all_subscriptions v' = false.
Proof.
  intros Hw Hs Hin Hm. destruct values as [|v0 vs]; [destruct Hin|].
  destruct (build_id_by_name_total lower all_subscriptions [] Hs) as (ix & B).
  destruct (resolve_filtered lower all_subscriptions v0 vs _ eq_refl)
    as [(e & B' & _) | (ix' & _ & S & C & ->)]; [congruence|].
  now apply resolve_loop_unknown with (v := v).
Qed.

(** C3: a requested value that is an exact key of the ID-to-name map is
    resolved to that ID and its name, whether or not it also equals some
    display name up to case (requested alone, it selects that subscription
    only); any other value that equals a display name up to case is
    resolved to the ID and name of a subscription so named.  Resolution
    succeeds whenever every requested value matches one way or the other. *)
Theorem C3_exact_id_before_name lower (all_subscriptions : subscriptions) values :
  dict_wf all_subscriptions -> names_are_strings all_subscriptions = true ->
  values <> [] ->
  forallb (matches lower all_subscriptions) values = true ->
  exists res,
    resolve_requested_subscriptions lower (Some values) all_subscriptions = Ok res /\
    forall v, In v values ->
      (forall nm, dict_get key_eqb (JStr v) all_subscriptions = Some nm ->
                  In (JStr v, nm) res /\ (values = [v] -> res = [(JStr v, nm)])) /\
      (dict_get key_eqb (JStr v) all_subscriptions = None ->
       exists sub_id n, In (sub_id, JStr n) all_subscriptions /\
                        lower n = lower v /\ In (sub_id, JStr n) res).
Proof.
  intros Hw Hs Hne Hm.
  destruct (resolve_total lower _ _ Hw Hs Hm) as (res & Hr).
  exists res. split; [exact Hr|]. intros v Hin.
  destruct (resolved_entry lower _ _ _ _ Hw Hne Hr Hin) as (_ & _ & Hx & Hn).
  split; [|exact Hn].
  intros nm E. split; [auto|]. intros ->.
  apply resolve_filtered in Hr as [(e & _ & [=]) | (ix & _ & _ & _ & Hr)].
  cbn in Hr. rewrite E in Hr. cbn in Hr. congruence.
Qed.

Lemma C3_exact_id_before_name_witness :
  let all_subscriptions :=
    [(JStr "alpha", JStr "Beta"); (JStr "beta", JStr "Gamma")] in
  exists res,
    resolve_requested_subscriptions ascii_lower (Some ["beta"]) all_subscriptions
      = Ok res /\
    res = [(JStr "beta", JStr "Gamma")].
Proof.
  cbv zeta.
  destruct (C3_exact_id_before_name ascii_lower
              [(JStr "alpha", JStr "Beta"); (JStr "beta", JStr "Gamma")]
              ["beta"])
    as (res & Hr & Hv).
  - reflexivity.
  - reflexivity.
  - discriminate.
  - reflexivity.
  - exists res. split; [exact Hr|].
    destruct (Hv "beta" (or_introl eq_refl)) as [Hx _].
    destruct (Hx (JStr "Gamma") eq_refl) as [_ Hone].
    now apply Hone.
Defined.

(** C9: resolution never yields a subscription twice.  The keys of the
    result are pairwise distinct, so no ID occurs more than once, and a
    subscription requested by ID, by name or by variants of its name in
    other case contributes exactly one scope. *)
Theorem C9_each_subscription_once lower requested
    (all_subscriptions res : subscriptions) :
  dict_wf all_subscriptions ->
  resolve_requested_subscriptions lower requested all_subscriptions = Ok res ->
  dict_wf res /\ NoDup (map fst res) /\
  (forall k, occurrences k res <= 1) /\
  (forall values v, requested = Some values -> values <> [] -> In v values ->
     exists sub_id nm,
       In (sub_id, nm) all_subscriptions /\ In (sub_id, nm) res /\
       occurrences sub_id res = 1 /\
       (sub_id = JStr v \/ exists n, nm = JStr n /\ lower n = lower v)).
Proof.
  intros Hw Hr.
  assert (Hwr : dict_wf res).
  { destruct requested as [[|v vs]|]; cbn in Hr; try (injection Hr as <-; exact Hw).
    assert (In v (v :: vs)) as Hin by now left.
    assert (v :: vs <> []) as Hne by discriminate.
    now destruct (resolved_entry lower _ _ _ _ Hw Hne Hr Hin). }
  split; [exact Hwr|]. split; [now apply keys_distinctb_NoDup|].
  split; [intros k; now apply occurrences_le_1|].
  intros values v -> Hne Hin.
  destruct (resolved_entry lower _ _ _ _ Hw Hne Hr Hin) as (_ & Hi & Hx & Hn).
  assert (One : forall k nm, In (k, nm) res -> occurrences k res = 1).
  { intros k nm Hk.
    pose proof (occurrences_le_1 res k Hwr).
    assert (Hkk : key_eqb k k = true).
    { pose proof (dict_wf_get_In _ _ _ Hwr Hk) as G.
      apply dict_get_In in G as (k' & _ & E).
      eapply key_eqb_trans; [exact E|]. now rewrite key_eqb_sym. }
    pose proof (occurrences_ge_1 res k nm Hk Hkk). lia. }
  destruct (dict_get key_eqb (JStr v) all_subscriptions) as [nm|] eqn:E.
  - exists (JStr v), nm. pose proof (Hx nm eq_refl) as Hres.
    repeat split; eauto.
  - destruct (Hn eq_refl) as (sid & n & Ha & Hl & Hres).
    exists sid, (JStr n). repeat split; eauto.
Qed.

Lemma C9_each_subscription_once_witness :
  let all_subscriptions :=
    [(JStr "s-1", JStr "Prod"); (JStr "s-2", JStr "Dev")] in
  let res := [(JStr "s-1", JStr "Prod")] in
  resolve_requested_subscriptions ascii_lower
    (Some ["s-1"; "Prod"; "PROD"; "prod"; "s-1"]) all_subscriptions = Ok res /\
  NoDup (map fst res) /\ occurrences (JStr "s-1") res <= 1.
Proof.
  cbv zeta.
  assert (Hr : resolve_requested_subscriptions ascii_lower
                 (Some ["s-1"; "Prod"; "PROD"; "prod"; "s-1"])
                 [(JStr "s-1", JStr "Prod"); (JStr "s-2", JStr "Dev")]
               = Ok [(JStr "s-1", JStr "Prod")]) by reflexivity.
  split; [exact Hr|].
  assert (Hw : dict_wf [(JStr "s-1", JStr "Prod"); (JStr "s-2", JStr "Dev")])
    by reflexivity.
  destruct (C9_each_subscription_once ascii_lower _ _ _ Hw Hr)
    as (_ & Hnd & Hocc & _).
  split; [exact Hnd | apply Hocc].
Defined.

(** ** Loops over listings *)

Lemma append_records_app mk vms : forall records,
  append_records mk vms records
  = rbind (append_records mk vms []) (fun rs => Ok (records ++ rs)).
Proof.
  induction vms as [|vm rest IH]; intros records; cbn.
  - now rewrite app_nil_r.
  - destruct (mk vm) as [r|e]; cbn; [|reflexivity].
    rewrite (IH (records ++ [r])), (IH [r]).
    destruct (append_records mk rest []); cbn; [|reflexivity].
    now rewrite <- app_assoc.
Qed.

Lemma append_records_Forall2 mk vms : forall rs,
  append_records mk vms [] = Ok rs ->
  Forall2 (fun vm r => mk vm = Ok r) vms rs.
Proof.
  induction vms as [|vm rest IH]; intros rs; cbn.
  - intros [= <-]. constructor.
  - destruct (mk vm) as [r|e] eqn:E; cbn; [|discriminate].
    rewrite append_records_app.
    destruct (append_records mk rest []) as [rs'|e]; cbn; [|discriminate].
    intros [= <-]. constructor; auto.
Qed.

Lemma for_each_listed {A} (body : A -> list VmRecord -> M (list VmRecord))
    (listing : nat -> A -> result (list VmRecord)) :
  (forall x records l res l',
     body x records l = (Ok res, l') ->
     length l' = S (length l) /\
     exists rs, listing (length l) x = Ok rs /\ res = records ++ rs) ->
  forall xs records l res l',
    for_each xs body records l = (Ok res, l') ->
    length l' = length l + length xs /\
    exists per_scope,
      length per_scope = length xs /\
      res = records ++ concat per_scope /\
      forall i x, nth_error xs i = Some x ->
        exists rs, nth_error per_scope i = Some rs /\
                   listing (length l + i) x = Ok rs.
Proof.
  intros Hbody. induction xs as [|x xs IH]; intros records l res l'; cbn.
  - unfold ret. intros [= <- <-]. split; [lia|].
    exists []. repeat split; [now rewrite app_nil_r|].
    intros i y Hi. destruct i; discriminate.
  - unfold bind. destruct (body x records l) as [[r1|e] l1] eqn:B; [|discriminate].
    intros H. destruct (Hbody _ _ _ _ _ B) as (Hl1 & rs & Hrs & ->).
    destruct (IH _ _ _ _ H) as (Hl' & per & Hlen & -> & Hnth).
    split; [lia|].
    exists (rs :: per). repeat split.
    + cbn. now rewrite Hlen.
    + cbn. now rewrite app_assoc.
    + intros [|i] y Hi; cbn in Hi.
      * injection Hi as <-. exists rs. rewrite Nat.add_0_r. auto.
      * destruct (Hnth i y Hi) as (rs' & H1 & H2). exists rs'. split; [exact H1|].
        rewrite Hl1 in H2. now rewrite Nat.add_succ_r.
Qed.

Section Pipeline.
Variable lower : string -> string.
Variable strip : string -> string.
Variable json_loads : string -> option json.
Variable cli : nat -> command -> result completed.

Lemma gcp_scope_spec project records l :
  gcp_scope strip json_loads cli project records l
  = (rbind (gcp_listing strip json_loads cli (length l) project)
           (fun rs => Ok (records ++ rs)),
     l ++ [gcloud_instances_list project]).
Proof.
  unfold gcp_scope, gcp_listing, bind, run_json_command, lift.
  destruct (outcome_json _ _ _) as [vm_list|e]; cbn; [|reflexivity].
  destruct (py_iter vm_list) as [vms|e]; cbn; [|reflexivity].
  now rewrite append_records_app.
Qed.

Lemma azure_scope_spec scope records l :
  azure_scope strip json_loads cli scope records l
  = match fst scope with
    | JStr sid =>
        (rbind (azure_listing strip json_loads cli (length l) scope)
               (fun rs => Ok (records ++ rs)),
         l ++ [az_vm_list sid])
    | _ => (Raise TypeError, l)
    end.
Proof.
  destruct scope as [sid nm]. unfold azure_scope, azure_listing. cbn [fst snd].
  destruct sid; try reflexivity.
  unfold bind, run_json_command, lift.
  destruct (outcome_json _ _ _) as [vm_list|e]; cbn; [|reflexivity].
  destruct (py_iter vm_list) as [vms|e]; cbn; [|reflexivity].
  now rewrite append_records_app.
Qed.

Lemma fetch_gcp_vms_listed projects l records l' :
  fetch_gcp_vms strip json_loads cli projects l = (Ok records, l') ->
  length l' = length l + length projects /\
  listed_in_order (gcp_listing strip json_loads cli) (length l) projects records.
Proof.
  intros H.
  assert (H' : for_each projects (gcp_scope strip json_loads cli) [] l = (Ok records, l')).
  { destruct projects; exact H. }
  apply (for_each_listed _ (gcp_listing strip json_loads cli)) in H'.
  - destruct H' as (Hl & per & Hlen & -> & Hnth). split; [exact Hl|].
    exists per. auto.
  - clear. intros x records l res l'. rewrite gcp_scope_spec.
    destruct (gcp_listing strip json_loads cli (length l) x) as [rs|e]; cbn;
      [|discriminate].
    intros [= <- <-]. rewrite length_app. cbn. split; [lia|]. eauto.
Qed.

Lemma gcp_listing_order i project rs :
  gcp_listing strip json_loads cli i project = Ok rs ->
  exists vm_list vms,
    outcome_json strip json_loads (gcloud_instances_list project)
                 (cli i (gcloud_instances_list project)) = Ok vm_list /\
    py_iter vm_list = Ok vms /\
    Forall2 (fun vm r => gcp_record project vm = Ok r) vms rs.
Proof.
  unfold gcp_listing.
  destruct (outcome_json _ _ _) as [vm_list|e] eqn:O; cbn; [|discriminate].
  destruct (py_iter vm_list) as [vms|e] eqn:I; cbn; [|discriminate].
  intros H. exists vm_list, vms.
  split; [first [exact O | reflexivity]|].
  split; [first [exact I | reflexivity]|].
  now apply append_records_Forall2.
Qed.

Lemma azure_listing_order i scope rs :
  azure_listing strip json_loads cli i scope = Ok rs ->
  exists sid vm_list vms,
    fst scope = JStr sid /\
    outcome_json strip json_loads (az_vm_list sid) (cli i (az_vm_list sid))
      = Ok vm_list /\
    py_iter vm_list = Ok vms /\
    Forall2 (fun vm r => azure_record (fst scope) (snd scope) vm = Ok r) vms rs.
Proof.
  unfold azure_listing. destruct scope as [k nm]. cbn [fst snd].
  destruct k as [ | | |sid| | ]; try discriminate.
  destruct (outcome_json _ _ _) as [vm_list|e] eqn:O; cbn; [|discriminate].
  destruct (py_iter vm_list) as [vms|e] eqn:I; cbn; [|discriminate].
  intros H. exists sid, vm_list, vms.
  split; [reflexivity|]. split; [first [exact O | reflexivity]|].
  split; [first [exact I | reflexivity]|].
  now apply append_records_Forall2.
Qed.

Lemma azure_scope_step x records l res l' :
  azure_scope strip json_loads cli x records l = (Ok res, l') ->
  length l' = S (length l) /\
  exists rs, azure_listing strip json_loads cli (length l) x = Ok rs /\
             res = records ++ rs.
Proof.
  rewrite azure_scope_spec. destruct x as [sid nm]. cbn [fst].
  destruct sid; try discriminate.
  destruct (azure_listing strip json_loads cli (length l) (JStr s, nm)) as [rs|e];
    cbn [rbind]; [|discriminate].
  intros [= <- <-]. rewrite length_app. cbn. split; [lia|]. eauto.
Qed.

Lemma fetch_azure_subscriptions_log l r l1 :
  fetch_azure_subscriptions strip json_loads cli l = (r, l1) ->
  l1 = l ++ [az_account_list].
Proof.
  unfold fetch_azure_subscriptions, bind, run_json_command, lift.
  destruct (outcome_json _ _ _); congruence.
Qed.

Lemma fetch_azure_vms_listed filters l records l' :
  fetch_azure_vms lower strip json_loads cli filters l = (Ok records, l') ->
  exists subs scopes,
    fetch_azure_subscriptions strip json_loads cli l = (Ok subs, l ++ [az_account_list]) /\
    resolve_requested_subscriptions lower filters subs = Ok scopes /\
    length l' = S (length l) + length scopes /\
    listed_in_order (azure_listing strip json_loads cli) (S (length l)) scopes records.
Proof.
  unfold fetch_azure_vms, bind at 1 2.
  destruct (fetch_azure_subscriptions strip json_loads cli l) as [[subs|e] l1] eqn:F;
    [|discriminate].
  pose proof (fetch_azure_subscriptions_log _ _ _ F) as ->.
  unfold lift.
  destruct (resolve_requested_subscriptions lower filters subs) as [scopes|e] eqn:R;
    [|discriminate].
  intros H. exists subs, scopes.
  apply (for_each_listed _ (azure_listing strip json_loads cli) azure_scope_step) in H.
  destruct H as (Hl & per & Hlen & -> & Hnth).
  rewrite length_app in Hl, Hnth. cbn [length] in Hl, Hnth.
  repeat split; auto; [lia|].
  exists per. repeat split; auto. intros i x Hi.
  destruct (Hnth i x Hi) as (rs & H1 & H2). exists rs. split; [exact H1|].
  now replace (S (length l) + i) with (length l + 1 + i) by lia.
Qed.
End Pipeline.

(** ** The orchestrator *)

Lemma collect_spec lower strip json_loads cli args w :
  let az := fetch_azure_vms lower strip json_loads cli (azure_subscription args)
                            (spawned w) in
  let gcp := fetch_gcp_vms strip json_loads cli (projects_of args) (snd az) in
  collect lower strip json_loads cli args w
  = (produced (fst az) ++ produced (fst gcp),
     mkWorld (snd gcp)
             (err_stream w
                ++ diagnostic "Failed to retrieve Azure VMs: " (fst az)
                ++ diagnostic "Failed to retrieve GCP VMs: " (fst gcp))
             (out_stream w) (files w)).
Proof.
  cbv zeta. unfold collect, try_extend.
  destruct (fetch_azure_vms lower strip json_loads cli (azure_subscription args)
              (spawned w)) as [[a|ea] l1]; cbn;
    destruct (fetch_gcp_vms strip json_loads cli (projects_of args) l1)
      as [[g|eg] l2]; cbn; unfold eprint, with_log; cbn;
    rewrite ?app_nil_r, <- ?app_assoc; reflexivity.
Qed.

Lemma main_spec lower strip json_loads cli fs args w :
  let cw := collect lower strip json_loads cli args w in
  let content := CSV_HEADERS :: map to_row (fst cw) in
  main lower strip json_loads cli fs args w
  = match fst cw with
    | [] =>
        (Ok 1%Z,
         eprint (Text "No VMs found or all queries failed; no CSV written.")
                (snd cw))
    | _ =>
        match fs (files w) (output args) content with
        | Written =>
            (Ok 0%Z,
             print (Wrote (length (fst cw)) (output args))
                   (with_files ((output args, content) :: files w) (snd cw)))
        | WriteRaised exc left_behind =>
            (Raise exc,
             with_files (match left_behind with
                         | Some partial => (output args, partial) :: files w
                         | None => files w
                         end) (snd cw))
        end
    end.
Proof.
  cbv zeta. unfold main.
  pose proof (collect_spec lower strip json_loads cli args w) as C.
  cbv zeta in C.
  destruct (collect lower strip json_loads cli args w) as [records w2].
  injection C as _ ->. cbn [fst snd files].
  destruct records as [|r records]; [reflexivity|].
  unfold write_csv. cbn [files].
  destruct (fs (files w) (output args) _) as [|exc left_behind]; reflexivity.
Qed.

Lemma build_subscriptions_wf accounts : forall acc subs,
  build_subscriptions accounts acc = Ok subs -> dict_wf acc -> dict_wf subs.
Proof.
  induction accounts as [|account rest IH]; intros acc subs; cbn.
  - now intros [= <-].
  - destruct (py_getitem account "id") as [k|e]; cbn; [|discriminate].
    destruct (py_get account "name" k) as [v|e]; cbn; [|discriminate].
    destruct (hashable k) eqn:Hk; [|discriminate].
    intros H Hw. apply (IH _ _ H). apply dict_wf_set; [exact Hw|].
    now apply key_eqb_refl.
Qed.

Lemma fetch_azure_subscriptions_wf strip json_loads cli l subs l1 :
  fetch_azure_subscriptions strip json_loads cli l = (Ok subs, l1) -> dict_wf subs.
Proof.
  unfold fetch_azure_subscriptions, bind, run_json_command, lift.
  destruct (outcome_json _ _ _) as [accounts|e]; [|discriminate].
  destruct (py_iter accounts) as [items|e]; cbn; [|discriminate].
  intros [= H _]. apply (build_subscriptions_wf _ _ _ H). reflexivity.
Qed.

(** C4: when some requested value matches neither a subscription ID nor,
    up to case, a display name, resolution raises the ValueError that
    stands for UnknownSubscription and yields no scope; the Azure fetch
    raises it in turn after the account listing alone, so no machine is
    listed, and the orchestrator gets no Azure record for the run. *)
Theorem C4_unknown_subscription_aborts lower strip json_loads cli
    (filters : list string) (v : string) (l : log) subs l1 :
  fetch_azure_subscriptions strip json_loads cli l = (Ok subs, l1) ->
  names_are_strings subs = true ->
  In v filters -> matches lower subs v = false ->
  exists v',
    In v' filters /\ matches lower subs v' = false /\
    resolve_requested_subscriptions lower (Some filters) subs
      = Raise (unknown_subscription v') /\
    fetch_azure_vms lower strip json_loads cli (Some filters) l
      = (Raise (unknown_subscription v'), l ++ [az_account_list]) /\
    forall args w,
      azure_subscription args = Some filters -> spawned w = l ->
      fst (collect lower strip json_loads cli args w)
        = produced (fst (fetch_gcp_vms strip json_loads cli (projects_of args)
                           (l ++ [az_account_list]))) /\
      In (Failed "Failed to retrieve Azure VMs: " (unknown_subscription v'))
         (err_stream (snd (collect lower strip json_loads cli args w))).
Proof.
  intros F Hs Hin Hm.
  pose proof (fetch_azure_subscriptions_wf _ _ _ _ _ _ F) as Hw.
  pose proof (fetch_azure_subscriptions_log _ _ _ _ _ _ F) as ->.
  destruct (resolve_unknown lower subs filters v Hw Hs Hin Hm)
    as (v' & R & Hin' & Hm').
  assert (Hf : fetch_azure_vms lower strip json_loads cli (Some filters) l
               = (Raise (unknown_subscription v'), l ++ [az_account_list])).
  { unfold fetch_azure_vms, bind at 1 2. rewrite F. unfold lift. now rewrite R. }
  exists v'. split; [exact Hin'|]. split; [exact Hm'|].
  split; [exact R|]. split; [exact Hf|].
  intros args w Ha Hl.
  pose proof (collect_spec lower strip json_loads cli args w) as C. cbv zeta in C.
  rewrite Ha, Hl, Hf in C. rewrite C. cbn. split; [reflexivity|].
  apply in_or_app. right. now left.
Qed.

Lemma C4_unknown_subscription_aborts_witness :
  let args := mkArgs (Some ["Prod"; "Nonexistent"]) None "out.csv" in
  exists v',
    fetch_azure_vms ascii_lower ascii_strip example_loads example_cli
      (Some ["Prod"; "Nonexistent"]) []
      = (Raise (unknown_subscription v'), [az_account_list]) /\
    fst (collect ascii_lower ascii_strip example_loads example_cli args empty_world) = [].
Proof.
  cbv zeta.
  destruct (C4_unknown_subscription_aborts ascii_lower ascii_strip example_loads example_cli
              ["Prod"; "Nonexistent"] "Nonexistent" []
              [(JStr "s-1", JStr "Prod"); (JStr "s-2", JStr "Dev")]
              [az_account_list])
    as (v' & _ & _ & _ & Hf & Hc).
  - reflexivity.
  - reflexivity.
  - right. now left.
  - reflexivity.
  - exists v'. split; [exact Hf|].
    destruct (Hc (mkArgs (Some ["Prod"; "Nonexistent"]) None "out.csv")
                 empty_world eq_refl eq_refl) as [-> _].
    reflexivity.
Defined.

(** C5: given no GCP project, the GCP adapter returns the empty list of
    records and spawns nothing; an absent --gcp-project option is that
    case. *)
Theorem C5_no_projects_no_commands lower strip json_loads cli :
  (forall l : log, fetch_gcp_vms strip json_loads cli [] l = (Ok [], l)) /\
  (forall args w,
     gcp_project args = None ->
     projects_of args = [] /\
     spawned (snd (collect lower strip json_loads cli args w))
       = snd (fetch_azure_vms lower strip json_loads cli (azure_subscription args)
                (spawned w))).
Proof.
  split; [reflexivity|]. intros args w H.
  assert (P : projects_of args = []) by (unfold projects_of; now rewrite H).
  split; [exact P|].
  pose proof (collect_spec lower strip json_loads cli args w) as C. cbv zeta in C.
  rewrite C, P. reflexivity.
Qed.

Lemma C5_no_projects_no_commands_witness :
  let args := mkArgs None None "out.csv" in
  projects_of args = [] /\
  spawned (snd (collect ascii_lower ascii_strip example_loads example_cli args empty_world))
    = [az_account_list; az_vm_list "s-1"; az_vm_list "s-2"].
Proof.
  cbv zeta.
  destruct (proj2 (C5_no_projects_no_commands ascii_lower ascii_strip example_loads example_cli)
              (mkArgs None None "out.csv") empty_world eq_refl) as [P S].
  split; [exact P|]. rewrite S. reflexivity.
Defined.

(** C6: the records of a run are the Azure records followed by the GCP
    records.  The Azure records are the listings of the resolved
    subscriptions, concatenated in the order resolution returned them
    (the order of the account list when no filter is given), each listing
    in the order the machines were returned; the GCP records are the
    listings of the projects, concatenated in the order the projects were
    supplied.  The rows of the report, when it is written, follow that
    order. *)
Theorem C6_azure_then_gcp lower strip json_loads cli fs args w :
  let az := fetch_azure_vms lower strip json_loads cli (azure_subscription args)
                            (spawned w) in
  let gcp := fetch_gcp_vms strip json_loads cli (projects_of args) (snd az) in
  let records := fst (collect lower strip json_loads cli args w) in
  records = produced (fst az) ++ produced (fst gcp) /\
  (forall A, fst az = Ok A ->
     exists subs scopes,
       fetch_azure_subscriptions strip json_loads cli (spawned w)
         = (Ok subs, spawned w ++ [az_account_list]) /\
       resolve_requested_subscriptions lower (azure_subscription args) subs
         = Ok scopes /\
       (azure_subscription args = None -> scopes = subs) /\
       listed_in_order (azure_listing strip json_loads cli)
                       (S (length (spawned w))) scopes A) /\
  (forall G, fst gcp = Ok G ->
     listed_in_order (gcp_listing strip json_loads cli) (length (snd az))
                     (projects_of args) G) /\
  (forall i scope rs, azure_listing strip json_loads cli i scope = Ok rs ->
     exists sid vm_list vms,
       fst scope = JStr sid /\
       outcome_json strip json_loads (az_vm_list sid) (cli i (az_vm_list sid))
         = Ok vm_list /\
       py_iter vm_list = Ok vms /\
       Forall2 (fun vm r => azure_record (fst scope) (snd scope) vm = Ok r)
               vms rs) /\
  (forall i project rs, gcp_listing strip json_loads cli i project = Ok rs ->
     exists vm_list vms,
       outcome_json strip json_loads (gcloud_instances_list project)
                    (cli i (gcloud_instances_list project)) = Ok vm_list /\
       py_iter vm_list = Ok vms /\
       Forall2 (fun vm r => gcp_record project vm = Ok r) vms rs) /\
  (records <> [] ->
     fs (files w) (output args) (CSV_HEADERS :: map to_row records) = Written ->
     files (snd (main lower strip json_loads cli fs args w))
     = (output args,
        CSV_HEADERS :: map to_row (produced (fst az))
                    ++ map to_row (produced (fst gcp))) :: files w).
Proof.
  cbv zeta.
  pose proof (collect_spec lower strip json_loads cli args w) as C. cbv zeta in C.
  split; [|split; [|split; [|split; [|split]]]].
  - now rewrite C.
  - intros A HA.
    destruct (fetch_azure_vms lower strip json_loads cli (azure_subscription args)
                (spawned w)) as [r l'] eqn:F.
    cbn in HA. subst r.
    destruct (fetch_azure_vms_listed _ _ _ _ _ _ _ _ F)
      as (subs & scopes & F1 & R & _ & L).
    exists subs, scopes. repeat split; auto.
    intros N. rewrite N in R. cbn in R. congruence.
  - intros G HG.
    destruct (fetch_gcp_vms strip json_loads cli (projects_of args) _) as [r l'] eqn:F.
    cbn in HG. subst r.
    now destruct (fetch_gcp_vms_listed _ _ _ _ _ _ _ F).
  - apply azure_listing_order.
  - apply gcp_listing_order.
  - intros Hne Hw. rewrite main_spec. cbv zeta. rewrite C in *.
    cbn [fst snd] in *. rewrite Hw.
    destruct (produced _ ++ produced _) eqn:E; [congruence|].
    cbn. rewrite <- map_app, E. reflexivity.
Qed.

Lemma C6_azure_then_gcp_witness :
  let args := mkArgs None (Some ["proj-a"]) "out.csv" in
  map name (fst (collect ascii_lower ascii_strip example_loads example_cli args empty_world))
    = [JStr "web"; JStr "db"; JStr "gce"] /\
  map cloud (fst (collect ascii_lower ascii_strip example_loads example_cli args empty_world))
    = ["azure"; "azure"; "gcp"].
Proof.
  cbv zeta.
  destruct (C6_azure_then_gcp ascii_lower ascii_strip example_loads example_cli
              example_fs (mkArgs None (Some ["proj-a"]) "out.csv") empty_world)
    as (-> & _).
  split; reflexivity.
Defined.







(** * Further properties *)

(** ** Rows and records *)

Lemma effective_tags_obj container fields :
  tags_usable container fields = true ->
  exists tags, effective_tags container fields = JObj tags.
Proof.
  unfold tags_usable, effective_tags, py_or.
  destruct (assoc_get container fields) as [t|]; [|cbn; eauto].
  destruct (truthy t) eqn:T; cbn; [|eauto].
  destruct t; cbn; try discriminate. eauto.
Qed.

Lemma effective_tags_not_obj container fields k d :
  tags_usable container fields = false ->
  py_get (effective_tags container fields) k d = Raise AttributeError.
Proof.
  unfold tags_usable, effective_tags, py_or.
  destruct (assoc_get container fields) as [t|]; [|discriminate].
  destruct (truthy t) eqn:T; cbn; [|discriminate].
  destruct t; cbn; try discriminate; reflexivity.
Qed.

Lemma azure_record_obj sid sname fields :
  azure_record sid sname (JObj fields)
  = if tags_usable "tags" fields
    then Ok (mkVmRecord "azure" (py_or sname sid)
               (match assoc_get "resourceGroup" fields with
                | Some x => x | None => JStr "" end)
               (match assoc_get "name" fields with
                | Some x => x | None => JStr "" end)
               (code_status fields)
               (match source_tag "tags" fields "owner" with
                | Some x => x | None => JNull end)
               (match source_tag "tags" fields "cleardata" with
                | Some x => x | None => JNull end)
               (match source_tag "tags" fields "environment" with
                | Some x => x | None => JNull end))
    else Raise AttributeError.
Proof.
  destruct (azure_record sid sname (JObj fields)) as [r|e] eqn:E.
  - apply azure_record_inv in E as (ow & cd & en & Ho & Hc & He & ->).
    destruct (tags_usable "tags" fields) eqn:U.
    + apply effective_tags_get in Ho, Hc, He. now subst.
    + rewrite effective_tags_not_obj in Ho by exact U. discriminate.
  - destruct (tags_usable "tags" fields) eqn:U.
    + exfalso. destruct (effective_tags_obj _ _ U) as (tags & T).
      revert E. unfold azure_record. cbn [py_get rbind].
      fold (effective_tags "tags" fields). rewrite T. cbn [py_get rbind].
      destruct (truthy _); discriminate.
    + revert E. unfold azure_record. cbn [py_get rbind].
      fold (effective_tags "tags" fields).
      rewrite !effective_tags_not_obj by exact U.
      destruct (truthy _); cbn; congruence.
Qed.

Lemma gcp_record_obj project fields :
  gcp_record project (JObj fields)
  = if tags_usable "labels" fields
    then Ok (mkVmRecord "gcp" (JStr project) (JStr project)
               (match assoc_get "name" fields with
                | Some x => x | None => JStr "" end)
               (match assoc_get "status" fields with
                | Some x => x | None => JStr "unknown" end)
               (match source_tag "labels" fields "owner" with
                | Some x => x | None => JNull end)
               (match source_tag "labels" fields "cleardata" with
                | Some x => x | None => JNull end)
               (match source_tag "labels" fields "environment" with
                | Some x => x | None => JNull end))
    else Raise AttributeError.
Proof.
  destruct (gcp_record project (JObj fields)) as [r|e] eqn:E.
  - apply gcp_record_inv in E as (ow & cd & en & Ho & Hc & He & ->).
    destruct (tags_usable "labels" fields) eqn:U.
    + apply effective_tags_get in Ho, Hc, He. now subst.
    + rewrite effective_tags_not_obj in Ho by exact U. discriminate.
  - destruct (tags_usable "labels" fields) eqn:U.
    + exfalso. destruct (effective_tags_obj _ _ U) as (tags & T).
      revert E. unfold gcp_record. cbn [py_get rbind].
      fold (effective_tags "labels" fields). rewrite T. cbn [py_get rbind].
      discriminate.
    + revert E. unfold gcp_record. cbn [py_get rbind].
      fold (effective_tags "labels" fields).
      rewrite !effective_tags_not_obj by exact U. cbn. congruence.
Qed.

(** X1: mapping a machine to a record fails in one way only.  Either
    adapter builds a record exactly when the machine is a JSON object
    whose tags (labels) field is absent, falsy or itself an object; in
    every other case it raises AttributeError. *)
Theorem X1_record_mapping_failures sid sname project vm :
  (match azure_record sid sname vm with
   | Ok _ => exists fields, vm = JObj fields /\ tags_usable "tags" fields = true
   | Raise e =>
       e = AttributeError /\
       forall fields, vm = JObj fields -> tags_usable "tags" fields = false
   end) /\
  (match gcp_record project vm with
   | Ok _ => exists fields, vm = JObj fields /\ tags_usable "labels" fields = true
   | Raise e =>
       e = AttributeError /\
       forall fields, vm = JObj fields -> tags_usable "labels" fields = false
   end).
Proof.
  split.
  - destruct vm as [ | | | | |fields];
      try (cbn; split; [reflexivity | intros f; discriminate]).
    rewrite azure_record_obj. destruct (tags_usable "tags" fields) eqn:U.
    + eauto.
    + split; [reflexivity|]. intros f [= <-]. exact U.
  - destruct vm as [ | | | | |fields];
      try (cbn; split; [reflexivity | intros f; discriminate]).
    rewrite gcp_record_obj. destruct (tags_usable "labels" fields) eqn:U.
    + eauto.
    + split; [reflexivity|]. intros f [= <-]. exact U.
Qed.

Lemma truthy_or_empty (v : json) :
  truthy (py_or v (JStr "")) = true \/ py_or v (JStr "") = JStr "".
Proof. unfold py_or. destruct (truthy v) eqn:T; auto. Qed.

(** X2: every row has exactly the eight cells of the header, its first
    cell is the cloud, and its three optional cells are never None: each
    holds a truthy value or the empty string. *)
Theorem X2_row_shape (r : VmRecord) :
  length (to_row r) = length CSV_HEADERS /\
  length (to_row r) = 8 /\
  nth 0 (to_row r) JNull = JStr (cloud r) /\
  forall i, 5 <= i < 8 ->
    cell i r <> JNull /\ (truthy (cell i r) = true \/ cell i r = JStr "").
Proof.
  repeat split; try reflexivity.
  - destruct H as [H1 H2].
    assert (i = 5 \/ i = 6 \/ i = 7) as [-> | [-> | ->]] by lia;
      unfold cell, to_row; cbn [nth];
      match goal with
      | |- py_or ?v _ <> _ =>
          destruct (truthy_or_empty v) as [T | E];
          [intros N; rewrite N in T; discriminate | rewrite E; discriminate]
      end.
  - destruct H as [H1 H2].
    assert (i = 5 \/ i = 6 \/ i = 7) as [-> | [-> | ->]] by lia;
      unfold cell, to_row; cbn [nth]; apply truthy_or_empty.
Qed.

Lemma X2_row_shape_witness :
  let r := mkVmRecord "gcp" (JStr "p") (JStr "p") (JStr "vm") JNull
                      JNull (JStr "") (JStr "dev") in
  cell 5 r <> JNull /\ cell 6 r <> JNull /\ cell 7 r = JStr "dev".
Proof.
  cbv zeta.
  pose proof (X2_row_shape (mkVmRecord "gcp" (JStr "p") (JStr "p") (JStr "vm")
                              JNull JNull (JStr "") (JStr "dev")))
    as (_ & _ & _ & H).
  split; [apply (H 5); lia|]. split; [apply (H 6); lia | reflexivity].
Defined.

(** ** More on subscription resolution *)

Lemma find_app_or {A} (f : A -> bool) (l1 l2 : list A) :
  find f (l1 ++ l2)
  = match find f l1 with
    | Some x => Some x
    | None => find f l2
    end.
Proof.
  induction l1 as [|a l1 IH]; cbn; [reflexivity|].
  destruct (f a); [reflexivity | exact IH].
Qed.

Lemma dict_get_existsb {V} (k : json) (d : list (json * V)) :
  dict_get key_eqb k d = None <-> existsb (key_eqb k) (map fst d) = false.
Proof.
  induction d as [|[k0 v0] d IH]; cbn; [tauto|].
  destruct (key_eqb k k0); cbn; [split; discriminate | exact IH].
Qed.

Lemma build_id_by_name_last lower (items : subscriptions) v : forall acc m,
  build_id_by_name lower items acc = Ok m ->
  dict_get String.eqb (lower v) m
  = match find (name_matches lower v) (rev items) with
    | Some kv => Some (fst kv)
    | None => dict_get String.eqb (lower v) acc
    end.
Proof.
  induction items as [|[k nm] items IH]; intros acc m; cbn [build_id_by_name].
  - intros [= <-]. reflexivity.
  - destruct nm as [ | | |s| | ]; try discriminate. intros B.
    rewrite (IH _ _ B). cbn [rev]. rewrite find_app_or.
    destruct (find (name_matches lower v) (rev items)); [reflexivity|].
    rewrite (dict_get_set String.eqb String.eqb_sym string_eqb_trans).
    cbn. unfold name_matches. cbn [snd fst]. rewrite (String.eqb_sym (lower s)).
    destruct (String.eqb (lower v) (lower s)); reflexivity.
Qed.

Lemma build_id_by_name_raises lower (items : subscriptions) : forall acc,
  names_are_strings items = false ->
  build_id_by_name lower items acc = Raise AttributeError.
Proof.
  induction items as [|[k nm] items IH]; intros acc; cbn; [discriminate|].
  destruct nm; cbn; try reflexivity. apply IH.
Qed.

Lemma key_for_requested lower (all_subscriptions : subscriptions) ix v :
  build_id_by_name lower all_subscriptions [] = Ok ix ->
  key_for lower all_subscriptions ix v = requested_key lower all_subscriptions v.
Proof.
  intros B. unfold key_for, requested_key, last_name_match.
  destruct (dict_get key_eqb (JStr v) all_subscriptions); [reflexivity|].
  rewrite (build_id_by_name_last lower _ v _ _ B).
  destruct (find _ _); reflexivity.
Qed.

Lemma resolve_loop_keys lower (all_subscriptions : subscriptions) ix values :
  forall resolved res,
  resolve_loop lower values all_subscriptions ix resolved = Ok res ->
  exists ks,
    map (key_for lower all_subscriptions ix) values = map Some ks /\
    map fst res
    = map fst resolved ++ first_occurrences ks (map fst resolved).
Proof.
  induction values as [|value rest IH]; intros resolved res; cbn [resolve_loop].
  - intros [= <-]. exists []. cbn. now rewrite app_nil_r.
  - intros H.
    assert (Step : exists k nm,
      key_for lower all_subscriptions ix value = Some k /\
      resolve_loop lower rest all_subscriptions ix
                   (dict_set key_eqb k nm resolved) = Ok res).
    { unfold key_for.
      destruct (dict_get key_eqb (JStr value) all_subscriptions) as [nm|].
      - exists (JStr value), nm. auto.
      - destruct (dict_get String.eqb (lower value) ix) as [sid|]; [|discriminate].
        destruct (dict_get key_eqb sid all_subscriptions) as [nm|]; [|discriminate].
        exists sid, nm. auto. }
    destruct Step as (k & nm & Hk & Hrest).
    destruct (IH _ _ Hrest) as (ks & Hks & Hres).
    exists (k :: ks). split; [cbn; now rewrite Hk, Hks|].
    rewrite Hres. cbn [first_occurrences].
    destruct (dict_set_keys key_eqb k nm resolved) as [[N E] | [N E]].
    + rewrite E.
      destruct (existsb (key_eqb k) (map fst resolved)) eqn:X; [reflexivity|].
      apply dict_get_existsb in X. contradiction.
    + apply dict_get_existsb in N. rewrite N, E, map_app. cbn [map fst].
      now rewrite <- app_assoc.
Qed.

Lemma resolve_loop_requested lower (all_subscriptions : subscriptions) ix values :
  forall resolved res,
  resolve_loop lower values all_subscriptions ix resolved = Ok res ->
  forall k, In k (map fst res) ->
    In k (map fst resolved) \/
    exists v, In v values /\ key_for lower all_subscriptions ix v = Some k.
Proof.
  intros resolved res H k Hin.
  destruct (resolve_loop_keys _ _ _ _ _ _ H) as (ks & Hks & Hres).
  rewrite Hres in Hin. apply in_app_or in Hin as [Hin | Hin]; [auto|].
  right. clear Hres H.
  assert (Hk : In k ks).
  { revert Hin. generalize (map fst resolved). clear.
    induction ks as [|k0 ks IH]; intros seen; cbn; [tauto|].
    destruct (existsb (key_eqb k0) seen).
    - intros H. right. eapply IH, H.
    - intros [<- | H]; [now left | right; eapply IH, H]. }
  assert (Hs : In (Some k) (map (key_for lower all_subscriptions ix) values)).
  { rewrite Hks. now apply in_map. }
  apply in_map_iff in Hs as (v & E & Hv). eauto.
Qed.

(** X3: with a filter, resolution selects nothing that was not asked for.
    Every resolved scope is an entry of the ID-to-name map, and some
    requested value is its ID or equals its name up to case. *)
Theorem X3_resolution_selects_only_requested lower
    (all_subscriptions res : subscriptions) values :
  dict_wf all_subscriptions -> values <> [] ->
  resolve_requested_subscriptions lower (Some values) all_subscriptions = Ok res ->
  forall sub_id nm, In (sub_id, nm) res ->
    In (sub_id, nm) all_subscriptions /\
    exists v, In v values /\
      (sub_id = JStr v \/ exists n, nm = JStr n /\ lower n = lower v).
Proof.
  intros Hw Hne Hr sid nm Hin. destruct values as [|v0 vs]; [congruence|].
  apply resolve_filtered in Hr as [(e & _ & [=]) | (ix & B & Hs & Hc & Hr)].
  symmetry in Hr.
  assert (Hi : In (sid, nm) all_subscriptions).
  { eapply (resolve_loop_entries lower _ ix Hw Hs); eauto. intros x []. }
  split; [exact Hi|].
  assert (Hk : In sid (map fst res)).
  { change sid with (fst (sid, nm)). now apply in_map. }
  destruct (resolve_loop_requested _ _ _ _ _ _ Hr sid Hk)
    as [[] | (v & Hv & Key)].
  exists v. split; [exact Hv|]. unfold key_for in Key.
  destruct (dict_get key_eqb (JStr v) all_subscriptions) as [x|].
  - left. congruence.
  - right. destruct (Hs _ _ Key) as (n & Hn & Hl).
    exists n. split; [|exact Hl].
    assert (E : key_eqb sid sid = true).
    { pose proof (dict_wf_get_In _ _ _ Hw Hi) as G.
      apply dict_get_In in G as (k' & _ & E).
      eapply key_eqb_trans; [exact E|]. now rewrite key_eqb_sym. }
    now destruct (dict_wf_key_unique _ _ _ _ _ Hw Hi Hn E).
Qed.

Lemma X3_resolution_selects_only_requested_witness :
  let all_subscriptions :=
    [(JStr "s-1", JStr "Prod"); (JStr "s-2", JStr "Dev");
     (JStr "s-3", JStr "Test")] in
  resolve_requested_subscriptions ascii_lower (Some ["test"; "s-1"])
    all_subscriptions
    = Ok [(JStr "s-3", JStr "Test"); (JStr "s-1", JStr "Prod")] /\
  In (JStr "s-3", JStr "Test") all_subscriptions.
Proof.
  cbv zeta. split; [reflexivity|].
  assert (Hw : dict_wf [(JStr "s-1", JStr "Prod"); (JStr "s-2", JStr "Dev");
                        (JStr "s-3", JStr "Test")]) by reflexivity.
  assert (Hne : ["test"; "s-1"] <> []) by discriminate.
  exact (proj1 (X3_resolution_selects_only_requested ascii_lower _ _
                  ["test"; "s-1"] Hw Hne eq_refl (JStr "s-3") (JStr "Test")
                  (or_introl eq_refl))).
Defined.

(** X4: with a filter, the scopes come out in the order in which they
    were first requested, not in the order of the account list: the keys
    of the result are the first occurrences of the keys the requested
    values stand for. *)
Theorem X4_resolution_keeps_request_order lower
    (all_subscriptions res : subscriptions) values :
  values <> [] ->
  resolve_requested_subscriptions lower (Some values) all_subscriptions = Ok res ->
  exists ks,
    map (requested_key lower all_subscriptions) values = map Some ks /\
    map fst res = first_occurrences ks [].
Proof.
  intros Hne Hr. destruct values as [|v0 vs]; [congruence|].
  apply resolve_filtered in Hr as [(e & _ & [=]) | (ix & B & _ & _ & Hr)].
  symmetry in Hr.
  destruct (resolve_loop_keys _ _ _ _ _ _ Hr) as (ks & Hks & Hres).
  exists ks. split; [|exact Hres].
  rewrite <- Hks. apply map_ext. intros v. symmetry.
  now apply key_for_requested.
Qed.

Lemma X4_resolution_keeps_request_order_witness :
  let all_subscriptions :=
    [(JStr "s-1", JStr "Prod"); (JStr "s-2", JStr "Dev")] in
  exists res,
    resolve_requested_subscriptions ascii_lower
      (Some ["dev"; "s-1"; "DEV"]) all_subscriptions = Ok res /\
    map fst res = [JStr "s-2"; JStr "s-1"].
Proof.
  cbv zeta. eexists. split; [reflexivity|].
  assert (Hne : ["dev"; "s-1"; "DEV"] <> []) by discriminate.
  destruct (X4_resolution_keeps_request_order ascii_lower
              [(JStr "s-1", JStr "Prod"); (JStr "s-2", JStr "Dev")] _
              ["dev"; "s-1"; "DEV"] Hne eq_refl) as (ks & Hks & ->).
  destruct ks as [|a [|b [|c [|d ks]]]]; try discriminate Hks.
  cbn in Hks. injection Hks as <- <- <-. reflexivity.
Defined.

(** X5: when several subscriptions bear the same name up to case, a
    request by that name selects the one listed last.  For a value that is
    not an ID, requested alone, the result is the single entry of the last
    subscription whose name equals the value up to case. *)
Theorem X5_ambiguous_name_resolves_to_last lower
    (all_subscriptions : subscriptions) v sub_id nm :
  dict_wf all_subscriptions -> names_are_strings all_subscriptions = true ->
  dict_get key_eqb (JStr v) all_subscriptions = None ->
  last_name_match lower all_subscriptions v = Some (sub_id, nm) ->
  resolve_requested_subscriptions lower (Some [v]) all_subscriptions
    = Ok [(sub_id, nm)].
Proof.
  intros Hw Hs Hx Hl.
  destruct (build_id_by_name_total lower all_subscriptions [] Hs) as (ix & B).
  unfold resolve_requested_subscriptions. rewrite B. cbn [rbind resolve_loop].
  rewrite Hx, (build_id_by_name_last lower _ v _ _ B).
  unfold last_name_match in Hl. rewrite Hl. cbn [fst].
  apply find_some in Hl as [Hin _]. apply in_rev in Hin.
  now rewrite (dict_wf_get_In _ _ _ Hw Hin).
Qed.

Lemma X5_ambiguous_name_resolves_to_last_witness :
  resolve_requested_subscriptions ascii_lower (Some ["prod"])
    [(JStr "s-1", JStr "Prod"); (JStr "s-2", JStr "Dev");
     (JStr "s-3", JStr "PROD")]
  = Ok [(JStr "s-3", JStr "PROD")].
Proof.
  apply X5_ambiguous_name_resolves_to_last; reflexivity.
Defined.

(** X6: a display name that is not a string breaks every filtered run.
    If any subscription of the map has such a name, resolution with a
    non-empty filter raises AttributeError whatever is requested, while
    without a filter the map is returned as it is. *)
Theorem X6_non_string_name_breaks_filter lower
    (all_subscriptions : subscriptions) values :
  names_are_strings all_subscriptions = false ->
  (values <> [] ->
   resolve_requested_subscriptions lower (Some values) all_subscriptions
     = Raise AttributeError) /\
  resolve_requested_subscriptions lower None all_subscriptions
    = Ok all_subscriptions /\
  resolve_requested_subscriptions lower (Some []) all_subscriptions
    = Ok all_subscriptions.
Proof.
  intros Hs. split; [|split; reflexivity].
  intros Hne. destruct values as [|v vs]; [congruence|].
  unfold resolve_requested_subscriptions.
  now rewrite (build_id_by_name_raises lower _ [] Hs).
Qed.

Lemma X6_non_string_name_breaks_filter_witness :
  resolve_requested_subscriptions ascii_lower (Some ["s-1"])
    [(JStr "s-1", JStr "Prod"); (JStr "s-2", JNull)]
  = Raise AttributeError.
Proof.
  apply (X6_non_string_name_breaks_filter ascii_lower
           [(JStr "s-1", JStr "Prod"); (JStr "s-2", JNull)] ["s-1"]).
  - reflexivity.
  - discriminate.
Defined.

(** ** The ID-to-name map *)

Lemma build_subscriptions_step account acc :
  build_subscriptions [account] acc
  = match account_entry account with
    | Some (k, v) =>
        if hashable k then Ok (dict_set key_eqb k v acc) else Raise TypeError
    | None => Raise (account_error account)
    end.
Proof.
  destruct account as [ | | | | |fields]; try reflexivity.
  cbn. unfold assoc_get.
  destruct (dict_get String.eqb "id" fields) as [k|]; cbn; [|reflexivity].
  destruct (hashable k); reflexivity.
Qed.

Lemma build_subscriptions_cons account rest acc :
  build_subscriptions (account :: rest) acc
  = rbind (build_subscriptions [account] acc)
          (fun m => build_subscriptions rest m).
Proof.
  cbn. destruct (py_getitem account "id") as [k|e]; cbn; [|reflexivity].
  destruct (py_get account "name" k) as [v|e]; cbn; [|reflexivity].
  destruct (hashable k); reflexivity.
Qed.

Lemma account_not_ok_raises account acc :
  account_ok account = false ->
  build_subscriptions [account] acc = Raise (account_error account).
Proof.
  rewrite build_subscriptions_step. unfold account_ok, account_error.
  destruct account as [ | | | | |fields]; cbn; try reflexivity.
  destruct (assoc_get "id" fields) as [k|]; cbn; [|reflexivity].
  now intros ->.
Qed.

Lemma build_subscriptions_last accounts : forall acc subs,
  build_subscriptions accounts acc = Ok subs ->
  exists entries,
    map account_entry accounts = map Some entries /\
    forall k, dict_get key_eqb k subs
              = match last_name_of k entries with
                | Some nm => Some nm
                | None => dict_get key_eqb k acc
                end.
Proof.
  induction accounts as [|account rest IH]; intros acc subs.
  - cbn. intros [= <-]. exists []. split; reflexivity.
  - rewrite build_subscriptions_cons, build_subscriptions_step.
    destruct (account_entry account) as [[k0 v0]|] eqn:A; [|discriminate].
    destruct (hashable k0); [|discriminate]. cbn [rbind]. intros H.
    destruct (IH _ _ H) as (entries & Hm & Hg).
    exists ((k0, v0) :: entries). split; [cbn; now rewrite A, Hm|].
    intros k. rewrite Hg. unfold last_name_of. cbn [rev].
    rewrite find_app_or.
    destruct (find (fun e => key_eqb k (fst e)) (rev entries)); [reflexivity|].
    cbn. rewrite (dict_get_set key_eqb key_eqb_sym key_eqb_trans).
    destruct (key_eqb k k0); reflexivity.
Qed.

Lemma keys_distinctb_app (a b : list json) :
  keys_distinctb (a ++ b) = true ->
  keys_distinctb a = true /\ keys_distinctb b = true /\
  forall x y, In x a -> In y b -> key_eqb x y = false.
Proof.
  induction a as [|k a IH]; cbn [app].
  - intros H. repeat split; auto. intros x y [].
  - intros H. apply keys_distinctb_cons in H as (Hh & He & Hd).
    destruct (IH Hd) as (Ha & Hb & Hab).
    rewrite existsb_app in He. apply Bool.orb_false_iff in He as [He1 He2].
    repeat split; auto.
    + apply keys_distinctb_cons. auto.
    + intros x y [<- | Hx] Hy; [|auto].
      eapply existsb_key_false; eauto.
Qed.

Lemma build_subscriptions_distinct accounts : forall entries acc,
  map account_entry accounts = map Some entries ->
  keys_distinctb (map fst (acc ++ entries)) = true ->
  build_subscriptions accounts acc = Ok (acc ++ entries).
Proof.
  induction accounts as [|account rest IH]; intros entries acc Hm Hd.
  - destruct entries; [|discriminate]. cbn. now rewrite app_nil_r.
  - destruct entries as [|[k v] entries]; [discriminate|].
    cbn [map] in Hm. injection Hm as A Hm.
    rewrite build_subscriptions_cons, build_subscriptions_step, A.
    rewrite map_app in Hd. cbn [map fst] in Hd.
    pose proof (keys_distinctb_app _ _ Hd) as (_ & Hb & Hab).
    apply keys_distinctb_cons in Hb as (Hh & _ & _). rewrite Hh. cbn [rbind].
    assert (N : dict_get key_eqb k acc = None).
    { apply dict_get_existsb.
      destruct (existsb (key_eqb k) (map fst acc)) eqn:X; [|reflexivity].
      apply existsb_exists in X as (x & Hx & E).
      rewrite key_eqb_sym, (Hab x k Hx (or_introl eq_refl)) in E. discriminate. }
    destruct (dict_set_keys key_eqb k v acc) as [[N' _] | [_ ->]]; [congruence|].
    rewrite (IH entries (acc ++ [(k, v)]) Hm).
    + now rewrite <- app_assoc.
    + rewrite <- app_assoc. cbn [app]. rewrite map_app. exact Hd.
Qed.

(** X7: the ID-to-name map keeps the order of the account list and falls
    back to the ID for a missing name.  When the listed accounts are
    objects with pairwise distinct hashable IDs, the map holds, in the
    order listed, each account's ID with its name, or with its ID when the
    object has no name key; and the listing is the only command
    spawned. *)
Theorem X7_account_list_order strip json_loads cli (l : log) accounts entries :
  outcome_json strip json_loads az_account_list (cli (length l) az_account_list)
    = Ok (JArr accounts) ->
  map account_entry accounts = map Some entries ->
  keys_distinctb (map fst entries) = true ->
  fetch_azure_subscriptions strip json_loads cli l
    = (Ok entries, l ++ [az_account_list]).
Proof.
  intros O Hm Hd.
  unfold fetch_azure_subscriptions, bind, run_json_command, lift.
  rewrite O. cbn [py_iter rbind].
  now rewrite (build_subscriptions_distinct accounts entries []).
Qed.

Lemma X7_account_list_order_witness :
  fetch_azure_subscriptions ascii_strip example_loads example_cli []
  = (Ok [(JStr "s-1", JStr "Prod"); (JStr "s-2", JStr "Dev")],
     [az_account_list]).
Proof.
  apply (X7_account_list_order ascii_strip example_loads example_cli []
           [JObj [("id", JStr "s-1"); ("name", JStr "Prod")];
            JObj [("id", JStr "s-2"); ("name", JStr "Dev")]]).
  - reflexivity.
  - reflexivity.
  - reflexivity.
Defined.

(** X8: the ID-to-name map is a dict whatever the account list repeats.
    Its keys are hashable and pairwise distinct, and looking an ID up
    yields the name carried by the last listed account with that ID (its
    ID when that account has no name key), or nothing when no account has
    it. *)
Theorem X8_account_map_last_wins accounts subs :
  build_subscriptions accounts [] = Ok subs ->
  dict_wf subs /\
  exists entries,
    map account_entry accounts = map Some entries /\
    forall k, dict_get key_eqb k subs = last_name_of k entries.
Proof.
  intros H. split; [apply (build_subscriptions_wf _ _ _ H); reflexivity|].
  destruct (build_subscriptions_last _ _ _ H) as (entries & Hm & Hg).
  exists entries. split; [exact Hm|]. intros k. rewrite Hg.
  destruct (last_name_of k entries); reflexivity.
Qed.

Lemma X8_account_map_last_wins_witness :
  let accounts :=
    [JObj [("id", JStr "s-1"); ("name", JStr "Old")];
     JObj [("id", JStr "s-2")];
     JObj [("id", JStr "s-1"); ("name", JStr "New")]] in
  build_subscriptions accounts []
    = Ok [(JStr "s-1", JStr "New"); (JStr "s-2", JStr "s-2")] /\
  dict_wf [(JStr "s-1", JStr "New"); (JStr "s-2", JStr "s-2")].
Proof.
  cbv zeta. split; [reflexivity|].
  exact (proj1 (X8_account_map_last_wins
                  [JObj [("id", JStr "s-1"); ("name", JStr "Old")];
                   JObj [("id", JStr "s-2")];
                   JObj [("id", JStr "s-1"); ("name", JStr "New")]]
                  _ eq_refl)).
Defined.

Lemma build_subscriptions_total accounts : forall acc,
  forallb account_ok accounts = true ->
  exists subs, build_subscriptions accounts acc = Ok subs.
Proof.
  induction accounts as [|account rest IH]; intros acc; [cbn; eauto|].
  cbn [forallb]. rewrite Bool.andb_true_iff. intros [Ha Hr].
  rewrite build_subscriptions_cons, build_subscriptions_step.
  unfold account_ok in Ha.
  destruct (account_entry account) as [[k v]|]; [|discriminate].
  rewrite Ha. cbn [rbind]. now apply IH.
Qed.

Lemma build_subscriptions_first_bad good : forall bad rest acc,
  forallb account_ok good = true -> account_ok bad = false ->
  build_subscriptions (good ++ bad :: rest) acc = Raise (account_error bad).
Proof.
  induction good as [|account good IH]; intros bad rest acc Hg Hb.
  - cbn [app]. rewrite build_subscriptions_cons.
    now rewrite (account_not_ok_raises bad acc Hb).
  - cbn [forallb] in Hg. apply Bool.andb_true_iff in Hg as [Ha Hg].
    cbn [app]. rewrite build_subscriptions_cons, build_subscriptions_step.
    unfold account_ok in Ha.
    destruct (account_entry account) as [[k v]|]; [|discriminate].
    rewrite Ha. cbn [rbind]. now apply IH.
Qed.

(** X9: the subscription listing succeeds exactly when every listed
    account is an object with a hashable ID.  Otherwise the first account
    that is not decides the exception (KeyError for an object without an
    "id" key, TypeError for anything else), the Azure fetch raises it
    after the account listing alone, and no machine is listed. *)
Theorem X9_malformed_account_aborts lower strip json_loads cli filters (l : log)
    accounts :
  outcome_json strip json_loads az_account_list (cli (length l) az_account_list)
    = Ok (JArr accounts) ->
  (forallb account_ok accounts = true ->
   exists subs,
     fetch_azure_subscriptions strip json_loads cli l
       = (Ok subs, l ++ [az_account_list])) /\
  (forall good bad rest,
     accounts = good ++ bad :: rest ->
     forallb account_ok good = true -> account_ok bad = false ->
     fetch_azure_subscriptions strip json_loads cli l
       = (Raise (account_error bad), l ++ [az_account_list]) /\
     fetch_azure_vms lower strip json_loads cli filters l
       = (Raise (account_error bad), l ++ [az_account_list])).
Proof.
  intros O.
  assert (F : fetch_azure_subscriptions strip json_loads cli l
              = (build_subscriptions accounts [], l ++ [az_account_list])).
  { unfold fetch_azure_subscriptions, bind, run_json_command, lift.
    rewrite O. reflexivity. }
  split.
  - intros Hok. destruct (build_subscriptions_total accounts [] Hok) as (subs & B).
    exists subs. now rewrite F, B.
  - intros good bad rest -> Hg Hb.
    rewrite (build_subscriptions_first_bad good bad rest [] Hg Hb) in F.
    split; [exact F|].
    unfold fetch_azure_vms, bind at 1 2. now rewrite F.
Qed.

Lemma X9_malformed_account_aborts_witness :
  let loads := fun _ : string =>
    Some (JArr [JObj [("id", JStr "s-1")]; JObj [("name", JStr "Dev")]]) in
  let cli := fun (_ : nat) (_ : command) => Ok (mkCompleted 0 "" "") in
  fetch_azure_vms ascii_lower ascii_strip loads cli None []
  = (Raise (KeyError (JStr "id")), [az_account_list]).
Proof.
  cbv zeta.
  refine (proj2 (proj2 (X9_malformed_account_aborts ascii_lower ascii_strip
            (fun _ => Some (JArr [JObj [("id", JStr "s-1")];
                                  JObj [("name", JStr "Dev")]]))
            (fun _ _ => Ok (mkCompleted 0 "" "")) None [] _ eq_refl)
          [JObj [("id", JStr "s-1")]] (JObj [("name", JStr "Dev")]) []
          eq_refl eq_refl eq_refl)).
Defined.

(** ** Commands spawned *)

Lemma for_each_app {A S} (body : A -> S -> M S) xs ys : forall s l,
  for_each (xs ++ ys) body s l
  = match for_each xs body s l with
    | (Ok s', l') => for_each ys body s' l'
    | (Raise e, l') => (Raise e, l')
    end.
Proof.
  induction xs as [|x xs IH]; intros s l; cbn; [reflexivity|].
  unfold bind. destruct (body x s l) as [[s'|e] l']; [apply IH | reflexivity].
Qed.

Lemma for_each_log {A S} (body : A -> S -> M S) (R : A -> command -> Prop)
    (P : command -> Prop) :
  (forall x s l r l', body x s l = (r, l') ->
     exists cs, l' = l ++ cs /\ Forall P cs /\
       forall s', r = Ok s' -> exists c, cs = [c] /\ R x c) ->
  forall xs s l r l',
    for_each xs body s l = (r, l') ->
    exists cs, l' = l ++ cs /\ Forall P cs /\
      forall s', r = Ok s' -> Forall2 R xs cs.
Proof.
  intros Hbody. induction xs as [|x xs IH]; intros s l r l'; cbn.
  - unfold ret. intros [= <- <-]. exists []. rewrite app_nil_r.
    repeat split; auto.
  - unfold bind. destruct (body x s l) as [[s1|e] l1] eqn:B.
    + destruct (Hbody _ _ _ _ _ B) as (cs1 & -> & P1 & R1).
      destruct (R1 s1 eq_refl) as (c & -> & Rc). intros H.
      destruct (IH _ _ _ _ H) as (cs & -> & Pcs & Rcs).
      exists (c :: cs). rewrite <- app_assoc. repeat split; auto.
      * constructor; [now inversion P1 | exact Pcs].
      * intros s' E. constructor; eauto.
    + destruct (Hbody _ _ _ _ _ B) as (cs1 & -> & P1 & _).
      intros [= <- <-]. exists cs1. repeat split; auto. discriminate.
Qed.

Lemma Forall2_map_eq {A B} (f : A -> B) xs ys :
  Forall2 (fun x y => y = f x) xs ys -> ys = map f xs.
Proof. induction 1; cbn; congruence. Qed.

Section Spawned.
Variable lower : string -> string.
Variable strip : string -> string.
Variable json_loads : string -> option json.
Variable cli : nat -> command -> result completed.

Lemma fetch_gcp_vms_for_each projects :
  fetch_gcp_vms strip json_loads cli projects
  = for_each projects (gcp_scope strip json_loads cli) [].
Proof. destruct projects; reflexivity. Qed.

Lemma gcp_scope_log project s l r l' :
  gcp_scope strip json_loads cli project s l = (r, l') ->
  exists cs, l' = l ++ cs /\ Forall is_listing_command cs /\
    forall s', r = Ok s' ->
      exists c, cs = [c] /\ c = gcloud_instances_list project.
Proof.
  rewrite gcp_scope_spec. intros [= <- <-].
  exists [gcloud_instances_list project]. repeat split.
  - constructor; [|constructor]. right. right. eauto.
  - eauto.
Qed.

Lemma azure_scope_log scope s l r l' :
  azure_scope strip json_loads cli scope s l = (r, l') ->
  exists cs, l' = l ++ cs /\ Forall is_listing_command cs /\
    forall s', r = Ok s' ->
      exists c, cs = [c] /\
        exists sid, fst scope = JStr sid /\ c = az_vm_list sid.
Proof.
  rewrite azure_scope_spec. destruct scope as [k nm]. cbn [fst].
  destruct k as [ | | |sid| | ];
    try (intros [= <- <-]; exists []; rewrite app_nil_r;
         repeat split; [constructor | discriminate]).
  intros [= <- <-]. exists [az_vm_list sid]. repeat split.
  - constructor; [|constructor]. right. left. eauto.
  - eauto.
Qed.

Lemma fetch_gcp_vms_log projects l r l' :
  fetch_gcp_vms strip json_loads cli projects l = (r, l') ->
  exists cs, l' = l ++ cs /\ Forall is_listing_command cs /\
    forall G, r = Ok G -> cs = map gcloud_instances_list projects.
Proof.
  rewrite fetch_gcp_vms_for_each. intros H.
  destruct (for_each_log _ (fun p c => c = gcloud_instances_list p)
              is_listing_command gcp_scope_log _ _ _ _ _ H)
    as (cs & -> & Pcs & Rcs).
  exists cs. repeat split; auto.
  intros G E. now apply Forall2_map_eq, (Rcs G).
Qed.

Lemma fetch_azure_vms_log filters l r l' :
  fetch_azure_vms lower strip json_loads cli filters l = (r, l') ->
  exists cs, l' = l ++ az_account_list :: cs /\ Forall is_listing_command cs /\
    forall A, r = Ok A ->
      exists subs scopes,
        fetch_azure_subscriptions strip json_loads cli l
          = (Ok subs, l ++ [az_account_list]) /\
        resolve_requested_subscriptions lower filters subs = Ok scopes /\
        Forall2 (fun scope c =>
                   exists sid, fst scope = JStr sid /\ c = az_vm_list sid)
                scopes cs.
Proof.
  unfold fetch_azure_vms, bind at 1 2.
  destruct (fetch_azure_subscriptions strip json_loads cli l) as [[subs|e] l1] eqn:F;
    pose proof (fetch_azure_subscriptions_log _ _ _ _ _ _ F) as ->.
  - unfold lift.
    destruct (resolve_requested_subscriptions lower filters subs)
      as [scopes|e] eqn:Rs.
    + intros H.
      destruct (for_each_log _
                  (fun scope c =>
                     exists sid, fst scope = JStr sid /\ c = az_vm_list sid)
                  is_listing_command azure_scope_log _ _ _ _ _ H)
        as (cs & -> & Pcs & Rcs).
      exists cs. rewrite <- app_assoc. repeat split; auto.
      intros A E. exists subs, scopes. repeat split; auto. eapply Rcs, E.
    + intros [= <- <-]. exists []. repeat split; [constructor | discriminate].
  - intros [= <- <-]. exists []. repeat split; [constructor | discriminate].
Qed.
End Spawned.

Lemma azure_commands_of_scopes (scopes : subscriptions) cs :
  Forall2 (fun scope c => exists sid, fst scope = JStr sid /\ c = az_vm_list sid)
          scopes cs ->
  exists sids, map fst scopes = map JStr sids /\ cs = map az_vm_list sids.
Proof.
  induction 1 as [|scope c scopes cs (sid & Hs & ->) _ (sids & Hm & ->)].
  - exists []. auto.
  - exists (sid :: sids). cbn. now rewrite Hs, Hm.
Qed.

(** X10: a fetch that succeeds has spawned exactly one listing per scope,
    in scope order and without merging repeats: the GCP fetch one instance
    listing per supplied project, the Azure fetch the account listing
    followed by one machine listing per resolved subscription. *)
Theorem X10_one_listing_per_scope lower strip json_loads cli :
  (forall projects (l : log) G l',
     fetch_gcp_vms strip json_loads cli projects l = (Ok G, l') ->
     l' = l ++ map gcloud_instances_list projects) /\
  (forall filters (l : log) A l',
     fetch_azure_vms lower strip json_loads cli filters l = (Ok A, l') ->
     exists subs scopes sids,
       fetch_azure_subscriptions strip json_loads cli l
         = (Ok subs, l ++ [az_account_list]) /\
       resolve_requested_subscriptions lower filters subs = Ok scopes /\
       map fst scopes = map JStr sids /\
       l' = l ++ az_account_list :: map az_vm_list sids).
Proof.
  split.
  - intros projects l G l' H.
    destruct (fetch_gcp_vms_log _ _ _ _ _ _ _ H) as (cs & -> & _ & Hcs).
    now rewrite (Hcs G eq_refl).
  - intros filters l A l' H.
    destruct (fetch_azure_vms_log _ _ _ _ _ _ _ _ H) as (cs & -> & _ & Hcs).
    destruct (Hcs A eq_refl) as (subs & scopes & F & R & F2).
    destruct (azure_commands_of_scopes _ _ F2) as (sids & Hm & ->).
    exists subs, scopes, sids. auto.
Qed.

Lemma X10_one_listing_per_scope_witness :
  snd (fetch_gcp_vms ascii_strip example_loads example_cli ["proj-a"; "proj-a"] [])
  = [gcloud_instances_list "proj-a"; gcloud_instances_list "proj-a"].
Proof.
  destruct (fetch_gcp_vms ascii_strip example_loads example_cli ["proj-a"; "proj-a"] [])
    as [r l'] eqn:F.
  assert (exists G, r = Ok G) as (G & ->).
  { revert F. vm_compute. intros [= <- _]. eauto. }
  cbn [snd].
  exact (proj1 (X10_one_listing_per_scope ascii_lower ascii_strip example_loads example_cli)
           _ _ _ _ F).
Defined.

(** X11: a run spawns nothing but listings.  Whatever the arguments and
    whatever the clients answer, the commands spawned by main are appended
    to the log, the first of them is the Azure account listing (also when
    only GCP projects are requested), and each of them is an account
    listing, a machine listing of a subscription or an instance listing of
    a project. *)
Theorem X11_only_listing_commands lower strip json_loads cli fs args w :
  exists cs,
    spawned (snd (main lower strip json_loads cli fs args w))
      = spawned w ++ az_account_list :: cs /\
    Forall is_listing_command cs.
Proof.
  rewrite main_spec. cbv zeta.
  pose proof (collect_spec lower strip json_loads cli args w) as C. cbv zeta in C.
  rewrite C. cbn [fst snd]. clear C.
  destruct (fetch_azure_vms lower strip json_loads cli (azure_subscription args)
              (spawned w)) as [ra l1] eqn:Fa.
  cbn [fst snd].
  destruct (fetch_gcp_vms strip json_loads cli (projects_of args) l1) as [rg l2] eqn:Fg.
  cbn [fst snd].
  destruct (fetch_azure_vms_log _ _ _ _ _ _ _ _ Fa) as (ca & -> & Pa & _).
  destruct (fetch_gcp_vms_log _ _ _ _ _ _ _ Fg) as (cg & -> & Pg & _).
  exists (ca ++ cg). split.
  - destruct (produced ra ++ produced rg); [|destruct (fs _ _ _)]; cbn;
      now rewrite <- app_assoc.
  - apply Forall_app. auto.
Qed.

(** X12: a provider's fetch stops at its first failing listing and gives
    nothing.  If the listings of the earlier scopes succeeded and the
    listing of the next one raises, the fetch raises that exception, the
    records listed so far are not returned, and no later scope is
    queried. *)
Theorem X12_fetch_stops_at_first_failure lower strip json_loads cli :
  (forall ps1 p ps2 (l : log) rs1 l1 e,
     fetch_gcp_vms strip json_loads cli ps1 l = (Ok rs1, l1) ->
     gcp_listing strip json_loads cli (length l1) p = Raise e ->
     fetch_gcp_vms strip json_loads cli (ps1 ++ p :: ps2) l
       = (Raise e, l1 ++ [gcloud_instances_list p])) /\
  (forall filters (l : log) subs sc1 sc sc2 rs1 l1 e,
     fetch_azure_subscriptions strip json_loads cli l
       = (Ok subs, l ++ [az_account_list]) ->
     resolve_requested_subscriptions lower filters subs
       = Ok (sc1 ++ sc :: sc2) ->
     for_each sc1 (azure_scope strip json_loads cli) [] (l ++ [az_account_list])
       = (Ok rs1, l1) ->
     azure_listing strip json_loads cli (length l1) sc = Raise e ->
     fetch_azure_vms lower strip json_loads cli filters l
       = (Raise e,
          l1 ++ match fst sc with
                | JStr sid => [az_vm_list sid]
                | _ => []
                end)).
Proof.
  split.
  - intros ps1 p ps2 l rs1 l1 e H1 Hp.
    rewrite fetch_gcp_vms_for_each in *. rewrite for_each_app, H1.
    cbn [for_each]. unfold bind. rewrite gcp_scope_spec, Hp. reflexivity.
  - intros filters l subs sc1 sc sc2 rs1 l1 e F R H1 Hs.
    unfold fetch_azure_vms, bind at 1 2. rewrite F. unfold lift. rewrite R.
    rewrite for_each_app, H1. cbn [for_each]. unfold bind.
    rewrite azure_scope_spec. destruct sc as [k nm]. cbn [fst] in *.
    destruct k; try (rewrite Hs; reflexivity);
      rewrite app_nil_r; unfold azure_listing in Hs; cbn in Hs;
      injection Hs as <-; reflexivity.
Qed.

Lemma X12_fetch_stops_at_first_failure_witness :
  fetch_gcp_vms ascii_strip example_loads example_cli ["proj-a"; "proj-b"; "proj-a"] []
  = (Raise (RuntimeError_CommandFailed 1 (gcloud_instances_list "proj-b")
              "not found"),
     [gcloud_instances_list "proj-a"; gcloud_instances_list "proj-b"]).
Proof.
  apply (proj1 (X12_fetch_stops_at_first_failure ascii_lower ascii_strip example_loads
                  example_cli)
           ["proj-a"] "proj-b" ["proj-a"] []
           [mkVmRecord "gcp" (JStr "proj-a") (JStr "proj-a") (JStr "gce")
                       (JStr "RUNNING") JNull JNull (JStr "dev")]
           [gcloud_instances_list "proj-a"]).
  - reflexivity.
  - reflexivity.
Defined.

(** ** What a run leaves behind *)

Lemma app_same_nil {A} (l x : list A) : l ++ x = l -> x = [].
Proof.
  intros H. apply (app_inv_head l). now rewrite app_nil_r.
Qed.

(** X13: no failure is silent.  The error stream is left as it was
    exactly when both fetches returned and together gave at least one
    record; in every other run main adds at least one line to it. *)
Theorem X13_error_stream_clean_iff lower strip json_loads cli fs args w :
  let az := fetch_azure_vms lower strip json_loads cli (azure_subscription args)
                            (spawned w) in
  let gcp := fetch_gcp_vms strip json_loads cli (projects_of args) (snd az) in
  err_stream (snd (main lower strip json_loads cli fs args w)) = err_stream w <->
  exists A G, fst az = Ok A /\ fst gcp = Ok G /\ A ++ G <> [].
Proof.
  cbv zeta. rewrite main_spec. cbv zeta.
  pose proof (collect_spec lower strip json_loads cli args w) as C. cbv zeta in C.
  rewrite C. cbn [fst snd]. clear C.
  destruct (fetch_azure_vms lower strip json_loads cli (azure_subscription args)
              (spawned w)) as [ra l1].
  cbn [fst snd].
  destruct (fetch_gcp_vms strip json_loads cli (projects_of args) l1) as [rg l2].
  cbn [fst snd]. split.
  - intros H. destruct ra as [A|ea], rg as [G|eg]; cbn [produced diagnostic] in H.
    + exists A, G. repeat split. intros E. rewrite E in H. cbn in H.
      rewrite app_nil_r in H. apply app_same_nil in H. discriminate.
    + exfalso. destruct (A ++ []); [|destruct (fs _ _ _)]; cbn in H;
        rewrite <- ?app_assoc in H; apply app_same_nil in H; discriminate.
    + exfalso. destruct ([] ++ G); [|destruct (fs _ _ _)]; cbn in H;
        rewrite <- ?app_assoc in H; apply app_same_nil in H; discriminate.
    + exfalso. cbn in H. rewrite <- app_assoc in H.
      apply app_same_nil in H. discriminate.
  - intros (A & G & -> & -> & Hne). cbn [produced diagnostic].
    destruct (A ++ G); [congruence|].
    destruct (fs _ _ _); cbn; now rewrite app_nil_r.
Qed.

Lemma X13_error_stream_clean_iff_witness :
  err_stream (snd (main ascii_lower ascii_strip example_loads example_cli example_fs
                        (mkArgs None (Some ["proj-a"]) "out.csv") empty_world))
  = [].
Proof.
  apply (proj2 (X13_error_stream_clean_iff ascii_lower ascii_strip
                  example_loads example_cli example_fs
                  (mkArgs None (Some ["proj-a"]) "out.csv") empty_world)).
  eexists. eexists. split; [reflexivity|]. split; [reflexivity|]. discriminate.
Defined.

(** X14: exit status 0 vouches for the report.  When main returns 0, the
    file at the output path holds the header followed by at least one
    row, every row is as wide as the header, the count printed on standard
    output is the number of rows, and the files already there are left
    under it. *)
Theorem X14_exit_zero_means_report lower strip json_loads cli fs args w :
  fst (main lower strip json_loads cli fs args w) = Ok 0%Z ->
  exists rows,
    rows <> [] /\
    files (snd (main lower strip json_loads cli fs args w))
      = (output args, CSV_HEADERS :: rows) :: files w /\
    assoc_get (output args)
              (files (snd (main lower strip json_loads cli fs args w)))
      = Some (CSV_HEADERS :: rows) /\
    Forall (fun row => length row = length CSV_HEADERS) rows /\
    out_stream (snd (main lower strip json_loads cli fs args w))
      = out_stream w ++ [Wrote (length rows) (output args)].
Proof.
  rewrite main_spec. cbv zeta.
  pose proof (collect_spec lower strip json_loads cli args w) as C.
  cbv zeta in C. rewrite C. cbn [fst snd]. clear C.
  destruct (produced _ ++ produced _) as [|r records]; [discriminate|].
  destruct (fs _ _ _); [|discriminate].
  intros _. exists (map to_row (r :: records)). repeat split.
  - discriminate.
  - cbn. unfold assoc_get. cbn. now rewrite String.eqb_refl.
  - apply Forall_forall. intros row Hin.
    apply in_map_iff in Hin as (x & <- & _). reflexivity.
  - cbn. now rewrite length_map.
Qed.

Lemma X14_exit_zero_means_report_witness :
  exists rows,
    rows <> [] /\
    files (snd (main ascii_lower ascii_strip example_loads example_cli
                     example_fs (mkArgs None None "out.csv") empty_world))
      = [("out.csv", CSV_HEADERS :: rows)].
Proof.
  destruct (X14_exit_zero_means_report ascii_lower ascii_strip example_loads
              example_cli example_fs (mkArgs None None "out.csv") empty_world
              eq_refl)
    as (rows & Hne & Hf & _).
  exists rows. split; [exact Hne | exact Hf].
Defined.

Lemma listed_in_order_Forall {A} (listing : nat -> A -> result (list VmRecord))
    (P : A -> VmRecord -> Prop) first scopes records :
  listed_in_order listing first scopes records ->
  (forall i x rs, listing i x = Ok rs -> Forall (P x) rs) ->
  Forall (fun r => exists x, In x scopes /\ P x r) records.
Proof.
  intros (per & Hlen & -> & Hnth) HP. apply Forall_forall. intros r Hr.
  apply in_concat in Hr as (rs & Hrs & Hin).
  apply In_nth_error in Hrs as (i & Hi).
  assert (Hlt : i < length scopes).
  { rewrite <- Hlen. apply nth_error_Some. congruence. }
  destruct (nth_error scopes i) as [x|] eqn:Hx;
    [|apply nth_error_None in Hx; lia].
  destruct (Hnth i x Hx) as (rs' & H1 & H2).
  assert (rs' = rs) as -> by congruence.
  exists x. split; [eapply nth_error_In; eauto|].
  pose proof (HP _ _ _ H2) as F. rewrite Forall_forall in F. auto.
Qed.

(** X15: every record says where it came from.  Each record of the GCP
    fetch is tagged "gcp" and carries, in both scope columns, one of the
    projects supplied; each record of the Azure fetch is tagged "azure"
    and is labelled with the name of one of the resolved subscriptions, or
    with its ID when that name is falsy. *)
Theorem X15_record_provenance lower strip json_loads cli :
  (forall projects (l : log) G l',
     fetch_gcp_vms strip json_loads cli projects l = (Ok G, l') ->
     Forall (fun r => exists p, In p projects /\
                        cloud r = "gcp" /\
                        subscription_or_project r = JStr p /\
                        resource_group_or_project r = JStr p) G) /\
  (forall filters (l : log) A l',
     fetch_azure_vms lower strip json_loads cli filters l = (Ok A, l') ->
     exists subs scopes,
       fetch_azure_subscriptions strip json_loads cli l
         = (Ok subs, l ++ [az_account_list]) /\
       resolve_requested_subscriptions lower filters subs = Ok scopes /\
       Forall (fun r => exists scope, In scope scopes /\
                          cloud r = "azure" /\
                          subscription_or_project r
                            = py_or (snd scope) (fst scope)) A).
Proof.
  split.
  - intros projects l G l' H.
    destruct (fetch_gcp_vms_listed _ _ _ _ _ _ _ H) as (_ & L).
    eapply listed_in_order_Forall; [exact L|].
    intros i p rs Hl.
    destruct (gcp_listing_order _ _ _ _ _ _ Hl) as (vm_list & vms & _ & _ & F2).
    clear Hl. induction F2 as [|vm r vms rs Hr _ IH]; constructor; [|exact IH].
    destruct vm; try discriminate Hr. rewrite gcp_record_obj in Hr.
    destruct (tags_usable "labels" fields); [|discriminate].
    injection Hr as <-. auto.
  - intros filters l A l' H.
    destruct (fetch_azure_vms_listed _ _ _ _ _ _ _ _ H)
      as (subs & scopes & F & R & _ & L).
    exists subs, scopes. split; [exact F|]. split; [exact R|].
    eapply listed_in_order_Forall; [exact L|].
    intros i scope rs Hl.
    destruct (azure_listing_order _ _ _ _ _ _ Hl)
      as (sid & vm_list & vms & _ & _ & _ & F2).
    clear Hl. induction F2 as [|vm r vms rs Hr _ IH]; constructor; [|exact IH].
    destruct vm; try discriminate Hr. rewrite azure_record_obj in Hr.
    destruct (tags_usable "tags" fields); [|discriminate].
    injection Hr as <-. auto.
Qed.

Lemma X15_record_provenance_witness :
  Forall (fun r => exists p, In p ["proj-a"] /\
                     cloud r = "gcp" /\
                     subscription_or_project r = JStr p /\
                     resource_group_or_project r = JStr p)
         [mkVmRecord "gcp" (JStr "proj-a") (JStr "proj-a") (JStr "gce")
                     (JStr "RUNNING") JNull JNull (JStr "dev")].
Proof.
  apply (proj1 (X15_record_provenance ascii_lower ascii_strip example_loads example_cli)
           ["proj-a"] [] _ [gcloud_instances_list "proj-a"]).
  reflexivity.
Defined.

Lemma azure_failure_reported lower strip json_loads cli fs args w exc :
  let az := fetch_azure_vms lower strip json_loads cli (azure_subscription args)
                            (spawned w) in
  let gcp := fetch_gcp_vms strip json_loads cli (projects_of args) (snd az) in
  fst az = Raise exc ->
  In (Failed "Failed to retrieve Azure VMs: " exc)
     (err_stream (snd (main lower strip json_loads cli fs args w))) /\
  spawned (snd (main lower strip json_loads cli fs args w)) = snd gcp.
Proof.
  cbv zeta. rewrite main_spec. cbv zeta.
  pose proof (collect_spec lower strip json_loads cli args w) as C.
  cbv zeta in C. rewrite C. cbn [fst snd]. clear C.
  destruct (fetch_azure_vms lower strip json_loads cli (azure_subscription args)
              (spawned w)) as [ra l1].
  cbn [fst snd].
  destruct (fetch_gcp_vms strip json_loads cli (projects_of args) l1) as [rg l2].
  cbn [fst snd]. intros ->. cbn [produced diagnostic app].
  destruct (produced rg); [|destruct (fs _ _ _)]; cbn;
    rewrite ?in_app_iff; cbn; auto.
Qed.

(** X16: the command runner trusts the exit status before the output, and
    what it raises is what the user is told.  Every call adds exactly its
    command to the log.  It returns a value exactly when [subprocess.run]
    returned, the status was 0 and the output parsed; a non-zero status
    raises the command failure with that status and the stripped error
    text, whatever the output holds; output that does not parse raises
    with the stripped output; an exception of [subprocess.run] itself
    passes through.  When the account listing fails in any of these ways,
    the Azure fetch raises that exception after that one command, main
    prints it under the Azure prefix, and GCP is still queried. *)
Theorem X16_command_runner lower strip json_loads cli fs (cmd : command)
    (l : log) args w :
  snd (run_json_command strip json_loads cli cmd l) = l ++ [cmd] /\
  (forall v,
     fst (run_json_command strip json_loads cli cmd l) = Ok v <->
     exists c, cli (length l) cmd = Ok c /\ returncode c = 0%Z /\
               json_loads (stdout c) = Some v) /\
  (forall c, cli (length l) cmd = Ok c -> returncode c <> 0%Z ->
     fst (run_json_command strip json_loads cli cmd l)
       = Raise (RuntimeError_CommandFailed (returncode c) cmd
                  (strip (stderr c)))) /\
  (forall c, cli (length l) cmd = Ok c -> returncode c = 0%Z ->
     json_loads (stdout c) = None ->
     fst (run_json_command strip json_loads cli cmd l)
       = Raise (RuntimeError_MalformedOutput cmd (strip (stdout c)))) /\
  (forall exc, cli (length l) cmd = Raise exc ->
     fst (run_json_command strip json_loads cli cmd l) = Raise exc) /\
  (forall exc,
     fst (run_json_command strip json_loads cli az_account_list (spawned w))
       = Raise exc ->
     fetch_azure_vms lower strip json_loads cli (azure_subscription args)
                     (spawned w)
       = (Raise exc, spawned w ++ [az_account_list]) /\
     In (Failed "Failed to retrieve Azure VMs: " exc)
        (err_stream (snd (main lower strip json_loads cli fs args w))) /\
     spawned (snd (main lower strip json_loads cli fs args w))
       = snd (fetch_gcp_vms strip json_loads cli (projects_of args)
                (spawned w ++ [az_account_list]))).
Proof.
  unfold run_json_command. cbn [fst snd]. split; [reflexivity|].
  split; [|split; [|split; [|split]]].
  - intros v. unfold outcome_json. split.
    + destruct (cli (length l) cmd) as [c|]; [|discriminate].
      destruct (Z.eqb (returncode c) 0) eqn:E; cbn; [|discriminate].
      destruct (json_loads (stdout c)) as [x|] eqn:J; [|discriminate].
      intros [= <-]. exists c. apply Z.eqb_eq in E. auto.
    + intros (c & -> & Hz & J). rewrite Hz, J. reflexivity.
  - intros c -> Hnz. unfold outcome_json.
    apply Z.eqb_neq in Hnz. now rewrite Hnz.
  - intros c -> Hz J. unfold outcome_json. now rewrite Hz, J.
  - intros exc ->. reflexivity.
  - intros exc Hr.
    assert (F : fetch_azure_vms lower strip json_loads cli
                  (azure_subscription args) (spawned w)
                = (Raise exc, spawned w ++ [az_account_list])).
    { unfold fetch_azure_vms, fetch_azure_subscriptions, bind, run_json_command.
      now rewrite Hr. }
    split; [exact F|].
    pose proof (azure_failure_reported lower strip json_loads cli fs args w exc)
      as R.
    cbv zeta in R. rewrite F in R. cbn [fst snd] in R. now apply R.
Qed.

Lemma X16_command_runner_witness :
  let cli := fun (_ : nat) (_ : command) =>
               Ok (mkCompleted 2 "[]" ("denied" ++ nl)) in
  fst (run_json_command ascii_strip (fun _ => Some (JArr [])) cli
         ["az"; "vm"; "list"] [])
  = Raise (RuntimeError_CommandFailed 2 ["az"; "vm"; "list"] "denied").
Proof.
  cbv zeta.
  apply (proj1 (proj2 (proj2 (X16_command_runner ascii_lower ascii_strip
           (fun _ => Some (JArr []))
           (fun _ _ => Ok (mkCompleted 2 "[]" ("denied" ++ nl)))
           example_fs ["az"; "vm"; "list"] [] (mkArgs None None "out.csv")
           empty_world)))
         (mkCompleted 2 "[]" ("denied" ++ nl))).
  - reflexivity.
  - discriminate.
Defined.

(** ** Repeated requests *)

Lemma dict_set_same {K V} (eqb : K -> K -> bool) k (v : V) d :
  dict_get eqb k d = Some v -> dict_set eqb k v d = d.
Proof.
  induction d as [|[k0 v0] d IH]; cbn; [discriminate|].
  destruct (eqb k k0).
  - now intros [= ->].
  - intros H. now rewrite IH.
Qed.

Lemma resolve_loop_app lower (all_subscriptions : subscriptions) ix a b :
  forall resolved,
  resolve_loop lower (a ++ b) all_subscriptions ix resolved
  = rbind (resolve_loop lower a all_subscriptions ix resolved)
          (fun r => resolve_loop lower b all_subscriptions ix r).
Proof.
  induction a as [|v a IH]; intros resolved; cbn [app resolve_loop];
    [reflexivity|].
  destruct (dict_get key_eqb (JStr v) all_subscriptions); [apply IH|].
  destruct (dict_get String.eqb (lower v) ix) as [sid|]; [|reflexivity].
  destruct (dict_get key_eqb sid all_subscriptions); [apply IH | reflexivity].
Qed.

Lemma resolve_loop_settled lower (all_subscriptions : subscriptions) ix extra :
  forall res,
  agrees all_subscriptions res ->
  (forall v, In v extra ->
     exists k, key_for lower all_subscriptions ix v = Some k /\
               dict_get key_eqb k res <> None) ->
  resolve_loop lower extra all_subscriptions ix res = Ok res.
Proof.
  induction extra as [|v extra IH]; intros res Ha Hp; cbn [resolve_loop];
    [reflexivity|].
  destruct (Hp v (or_introl eq_refl)) as (k & Hk & Hg). unfold key_for in Hk.
  assert (Hrest : forall v', In v' extra ->
            exists k', key_for lower all_subscriptions ix v' = Some k' /\
                       dict_get key_eqb k' res <> None).
  { intros v' Hin. apply Hp. now right. }
  destruct (dict_get key_eqb k res) as [nm|] eqn:G; [|congruence].
  pose proof (Ha _ _ G) as Gall.
  destruct (dict_get key_eqb (JStr v) all_subscriptions) as [nm'|] eqn:E.
  - injection Hk as <-. assert (nm' = nm) as -> by congruence.
    rewrite (dict_set_same key_eqb _ _ _ G). now apply IH.
  - rewrite Hk, Gall, (dict_set_same key_eqb _ _ _ G). now apply IH.
Qed.

(** X17: repeating requests changes nothing.  If resolution of a filter
    succeeds, appending to the filter any values that it already holds
    gives the same scopes in the same order. *)
Theorem X17_repeated_requests_are_harmless lower
    (all_subscriptions res : subscriptions) values extra :
  values <> [] ->
  resolve_requested_subscriptions lower (Some values) all_subscriptions = Ok res ->
  (forall v, In v extra -> In v values) ->
  resolve_requested_subscriptions lower (Some (values ++ extra)) all_subscriptions
    = Ok res.
Proof.
  intros Hne Hr Hsub. destruct values as [|v0 vs]; [congruence|].
  pose proof Hr as Hr0.
  apply resolve_filtered in Hr as [(e & _ & [=]) | (ix & B & _ & _ & Hr)].
  symmetry in Hr. cbn [app]. unfold resolve_requested_subscriptions.
  rewrite B. cbn [rbind].
  change (v0 :: vs ++ extra) with ((v0 :: vs) ++ extra).
  rewrite resolve_loop_app, Hr. cbn [rbind].
  assert (Ha0 : agrees all_subscriptions []) by (intros k nm; discriminate).
  assert (Hw0 : dict_wf []) by reflexivity.
  destruct (resolve_loop_ok lower _ ix _ _ _ Hr Ha0 Hw0) as (Ha & _ & _ & Hp).
  apply resolve_loop_settled; [exact Ha|].
  intros v Hin. apply Hp, Hsub, Hin.
Qed.

Lemma X17_repeated_requests_are_harmless_witness :
  resolve_requested_subscriptions ascii_lower
    (Some (["dev"; "s-1"] ++ ["s-1"; "dev"; "dev"]))
    [(JStr "s-1", JStr "Prod"); (JStr "s-2", JStr "Dev")]
  = Ok [(JStr "s-2", JStr "Dev"); (JStr "s-1", JStr "Prod")].
Proof.
  apply X17_repeated_requests_are_harmless.
  - discriminate.
  - reflexivity.
  - intros v [<- | [<- | [<- | []]]]; cbn; auto.
Defined.
